(** * The history voice agent: adapters and persona operations

    A shallow embedding of [knowledge-agent/agent.py]: the three provider
    wrappers ([GeminiLLM], [GladiaSTT], [MinimaxTTS]) and the [HistoryAgent]
    built on them, with the properties its specification states.

    Python text is a [string] (its UTF-8 bytes), a dict with string keys a
    [gmap string _], an exception an instance of the class [Exception],
    and a method that may raise or mutate its object a computation in a
    state-and-exception monad. *)

From Stdlib Require Import ZArith Strings.Byte.
From stdpp Require Import base option list strings gmap.

Local Open Scope string_scope.
Local Open Scope list_scope.

(** ** Python text *)

(** The line feed, Python's ["\n"]. *)
Definition nl : string := String (Ascii.ascii_of_nat 10) EmptyString.

(** [needle in hay] on [str]. *)
Fixpoint contains (needle hay : string) : bool :=
  if String.prefix needle hay then true
  else match hay with
       | EmptyString => false
       | String _ rest => contains needle rest
       end.

(** [bool(s)] for a [str]: the empty text is falsy. *)
Definition truthy (s : string) : bool :=
  match s with
  | EmptyString => false
  | String _ _ => true
  end.

(** [bool(x)] for a value that is [None] or a [str]. *)
Definition truthy_opt (x : option string) : bool :=
  match x with
  | None => false
  | Some s => truthy s
  end.

(** ** Exceptions and the monad of methods *)

(** An instance of [Exception] (or of a subclass): the class name and the
    text [str(e)]. The handlers of this program all read [except Exception]. *)
Record PyException := mkExc { exc_class : string; exc_text : string }.

Definition str (e : PyException) : string := exc_text e.

Inductive PyResult (A : Type) : Type :=
| Return (a : A)
| Raise (e : PyException).
Arguments Return {A} a.
Arguments Raise {A} e.

(** A method over a mutable store [S]: it returns or raises, and the store
    keeps what was written before a raise. *)
Definition M (S A : Type) : Type := S -> PyResult A * S.

Definition ret {S A} (a : A) : M S A := fun s => (Return a, s).

Definition raise {S A} (e : PyException) : M S A := fun s => (Raise e, s).

Definition bind {S A B} (m : M S A) (k : A -> M S B) : M S B :=
  fun s => match m s with
           | (Return a, s') => k a s'
           | (Raise e, s') => (Raise e, s')
           end.

(** [try: body  except Exception as e: handler e]. *)
Definition try_except {S A} (body : M S A) (handler : PyException -> M S A)
  : M S A :=
  fun s => match body s with
           | (Return a, s') => (Return a, s')
           | (Raise e, s') => handler e s'
           end.

Definition get {S} : M S S := fun s => (Return s, s).

(** An expression that may raise, evaluated inside a method. *)
Definition lift_result {S A} (r : PyResult A) : M S A := fun s => (r, s).

(** A method of a sub-object [T] of [S], run on the enclosing store. *)
Definition zoom {S T A} (proj : S -> T) (upd : T -> S -> S) (m : M T A)
  : M S A :=
  fun s => let '(r, t) := m (proj s) in (r, upd t s).

Declare Scope py_scope.
Delimit Scope py_scope with py.
Notation "'let*' x ':=' c 'in' k" := (bind c (fun x => k))
  (at level 10, x name, c at level 100, k at level 200) : py_scope.
Notation "'exec' c 'in' k" := (bind c (fun _ => k))
  (at level 10, c at level 100, k at level 200) : py_scope.
Local Open Scope py_scope.

(** ** Messages and the flattened prompt *)

(** A message in the OpenAI format: a dict; the keys read are ['role'] and
    ['content']. *)
Abbreviation Msg := (gmap string string).

(** The body of the loop of [_convert_messages]: the [if]/[elif] chain on
    the role, which has no [else]. *)
Definition convert_step (prompt_parts : list string) (msg : Msg)
  : list string :=
  let role := default "user" (msg !! "role") in
  let content := default EmptyString (msg !! "content") in
  if String.eqb role "system" then prompt_parts ++ ["System: " +:+ content]
  else if String.eqb role "user" then prompt_parts ++ ["User: " +:+ content]
  else if String.eqb role "assistant"
       then prompt_parts ++ ["Assistant: " +:+ content]
  else prompt_parts.

(** [GeminiLLM._convert_messages]. *)
Definition _convert_messages (messages : list Msg) : string :=
  let prompt_parts := fold_left convert_step messages [] in
  String.concat nl prompt_parts.

(** The label the prompt gives a role, for the three roles it renders. *)
Definition role_label (role : string) : option string :=
  if String.eqb role "system" then Some "System"
  else if String.eqb role "user" then Some "User"
  else if String.eqb role "assistant" then Some "Assistant"
  else None.

(** The role and the content of a message, with the defaults of [dict.get]. *)
Definition msg_role (msg : Msg) : string := default "user" (msg !! "role").
Definition msg_content (msg : Msg) : string := default EmptyString (msg !! "content").

(** The line ["<Role>: <content>"] of a message, when its role has a label. *)
Definition rendered_line (msg : Msg) : option string :=
  (fun label => label +:+ ": " +:+ msg_content msg) <$> role_label (msg_role msg).

Definition rendered_role (msg : Msg) : Prop :=
  msg_role msg = "system" \/ msg_role msg = "user" \/ msg_role msg = "assistant".

(** The lines of the prompt, in order: the parts that were joined. *)
Definition prompt_lines (messages : list Msg) : list string :=
  fold_left convert_step messages [].


(** ** The Gemini provider and its wrapper *)

(** A [ChatSession] object, named by the order of its creation: two calls
    of [start_chat] give two different handles. *)
Definition Handle : Type := nat.

(** What [send_message] returns; reading [response.text] raises when the
    reply holds no text part. *)
Record Response := mkResponse { text : PyResult string }.

(** One call of [session.say]. *)
Record Utterance := mkUtterance {
  utterance_text : string;
  allow_interruptions : bool
}.

(** What lies outside the objects of this program: the chat sessions the
    model was asked to start, the prompts it was sent, and what the host
    session was asked to say. *)
Record World := mkWorld {
  sessions_started : nat;
  sent : list (Handle * string);
  said : list Utterance
}.

(** [class GeminiLLM]: the model name and the chat handle. *)
Record GeminiLLM := mkGeminiLLM {
  model : string;
  chat : option Handle
}.

(** [GeminiLLM.__init__]; the key goes to the configuration of the client
    library, not to a field. *)
Definition GeminiLLM_init (api_key : string) (model_name : string)
  : GeminiLLM :=
  {| model := model_name; chat := None |}.

Definition default_model : string := "gemini-1.5-pro".

(** The dict [{'choices': [{'message': {'content': .., 'role': ..}}]}]. *)
Record ReplyMessage := mkReplyMessage { content : string; role : string }.
Record Choice := mkChoice { message : ReplyMessage }.
Record Reply := mkReply { choices : list Choice }.

Definition assistant_reply (c : string) : Reply :=
  {| choices := [ {| message := {| content := c; role := "assistant" |} |} ] |}.

(** [response['choices'][0]['message']['content']]. *)
Definition reply_content (response : Reply) : PyResult string :=
  match choices response with
  | c :: _ => Return (content (message c))
  | [] => Raise (mkExc "IndexError" "list index out of range")
  end.

Section Gemini.

(** The tools a caller may pass: any objects. *)
Context {Tool : Type}.

(** The model behind the chat sessions: what [send_message] does, given
    every message sent before, the handle and the prompt. *)
Variable model_reply :
  list (Handle * string) -> Handle -> string -> PyResult Response.

(** [self.model.start_chat(history=[])]: builds a new session object; no
    request is made, and the call returns. *)
Definition start_chat : M (GeminiLLM * World) Handle :=
  fun '(self, w) =>
    (Return (sessions_started w),
     (self, {| sessions_started := S (sessions_started w);
               sent := sent w; said := said w |})).

(** [self.chat = h]. *)
Definition set_chat (h : Handle) : M (GeminiLLM * World) unit :=
  fun '(self, w) => (Return tt, ({| model := model self; chat := Some h |}, w)).

(** [h.send_message(prompt)]. *)
Definition send_message (h : Handle) (prompt : string)
  : M (GeminiLLM * World) Response :=
  fun '(self, w) =>
    (model_reply (sent w) h prompt,
     (self, {| sessions_started := sessions_started w;
               sent := sent w ++ [(h, prompt)]; said := said w |})).

(** [self.chat.send_message(prompt)], with [self.chat] read again. *)
Definition chat_send_message (prompt : string)
  : M (GeminiLLM * World) Response :=
  let* st := get in
  match chat (fst st) with
  | Some h => send_message h prompt
  | None => raise (mkExc "AttributeError"
              "'NoneType' object has no attribute 'send_message'")
  end.

(** [GeminiLLM.chat_completion]. *)
Definition chat_completion (messages : list Msg) (tools : option (list Tool))
  : M (GeminiLLM * World) Reply :=
  try_except
    (let prompt := _convert_messages messages in
     let* st := get in
     exec (match chat (fst st) with
           | None => let* h := start_chat in set_chat h
           | Some _ => ret tt
           end) in
     let* response := chat_send_message prompt in
     let* response_text := lift_result (text response) in
     ret (assistant_reply response_text))
    (fun e =>
       ret (assistant_reply
              ("I apologize, but I encountered an error: " +:+ str e))).

(** A session of calls on one instance, one after the other. *)
Definition run_calls (calls : list (list Msg * option (list Tool)))
  (st : GeminiLLM * World) : GeminiLLM * World :=
  fold_left (fun st c => snd (chat_completion (fst c) (snd c) st)) calls st.

End Gemini.


(** ** HTTP and JSON *)

Abbreviation bytes := (list byte).

#[local] Set Warnings "-register-all".

(** A value decoded from JSON; a number keeps its literal. An object is the
    list of its members in the order of the document. *)
Inductive json : Type :=
| JNull
| JBool (b : bool)
| JNumber (literal : string)
| JString (s : string)
| JArray (items : list json)
| JObject (members : list (string * json)).

(** The dict decoded from an object: a later member replaces an earlier one
    of the same name. *)
Definition dict_lookup (key : string) (members : list (string * json))
  : option json :=
  fold_left (fun found m => if String.eqb (fst m) key then Some (snd m)
                            else found) members None.

(** [value.get(key, default)]: only a dict has the method. *)
Definition py_get (value : json) (key : string) (dflt : json) : PyResult json :=
  match value with
  | JObject members => Return (default dflt (dict_lookup key members))
  | _ => Raise (mkExc "AttributeError" "object has no attribute 'get'")
  end.

(** The member at [transcription.full_transcript] of a reply, when both
    objects and both members are there. *)
Definition full_transcript (reply : json) : option json :=
  match reply with
  | JObject members =>
      match dict_lookup "transcription" members with
      | Some (JObject inner) => dict_lookup "full_transcript" inner
      | _ => None
      end
  | _ => None
  end.

(** A field of a multipart form. *)
Inductive FormField : Type :=
| TextField (value : string)
| FileField (data : bytes) (filename content_type : string).

Inductive RequestBody : Type :=
| FormData (fields : list (string * FormField))
| JsonBody (payload : json).

Record Request := mkRequest {
  url : string;
  headers : list (string * string);
  body : RequestBody
}.

(** The reply of an endpoint: the status, and what [response.json()] and
    [response.read()] do. *)
Record HttpResponse := mkHttpResponse {
  status : Z;
  response_json : PyResult json;
  response_read : PyResult bytes
}.

(** ** The Gladia and MiniMax wrappers *)

Record GladiaSTT := mkGladiaSTT { stt_api_key : string; stt_base_url : string }.

Definition GladiaSTT_init (api_key : string) : GladiaSTT :=
  {| stt_api_key := api_key; stt_base_url := "https://api.gladia.io" |}.

Record MinimaxTTS := mkMinimaxTTS { tts_api_key : string; tts_base_url : string }.

Definition MinimaxTTS_init (api_key : string) : MinimaxTTS :=
  {| tts_api_key := api_key; tts_base_url := "https://api.minimax.chat" |}.

Definition voice_setting : json :=
  JObject [("voice_id", JString "presenter_male"); ("speed", JNumber "1.0");
           ("vol", JNumber "1.0"); ("pitch", JNumber "0")].

Definition audio_setting : json :=
  JObject [("sample_rate", JNumber "24000"); ("bitrate", JNumber "128000");
           ("format", JString "wav")].

Section Endpoints.

Context {S : Type}.

(** [session.post(..)] on a fresh client session: the transport fails
    (the call raises) or the endpoint replies. *)
Variable post : Request -> PyResult HttpResponse.

(** [GladiaSTT.recognize]. *)
Definition recognize (self : GladiaSTT) (audio_data : bytes) : M S json :=
  try_except
    (let data := [("audio", FileField audio_data "audio.wav" "audio/wav");
                  ("language", TextField "en")] in
     let headers := [("X-Gladia-Key", stt_api_key self)] in
     let* response :=
       lift_result (post {| url := stt_base_url self +:+ "/v2/transcription";
                            headers := headers; body := FormData data |}) in
     if Z.eqb (status response) 200 then
       let* result := lift_result (response_json response) in
       let* transcription :=
         lift_result (py_get result "transcription" (JObject [])) in
       let* transcript :=
         lift_result (py_get transcription "full_transcript"
                        (JString EmptyString)) in
       ret transcript
     else ret (JString EmptyString))
    (fun e => ret (JString EmptyString)).

(** [MinimaxTTS.synthesize]. *)
Definition synthesize (self : MinimaxTTS) (text : string) : M S bytes :=
  try_except
    (let payload := JObject [("text", JString text);
                             ("voice_setting", voice_setting);
                             ("audio_setting", audio_setting)] in
     let headers := [("Authorization", "Bearer " +:+ tts_api_key self);
                     ("Content-Type", "application/json")] in
     let* response :=
       lift_result (post {| url := tts_base_url self +:+ "/v1/text_to_speech";
                            headers := headers; body := JsonBody payload |}) in
     if Z.eqb (status response) 200 then
       let* audio_data := lift_result (response_read response) in
       ret audio_data
     else ret [])
    (fun e => ret []).

End Endpoints.


(** ** The history agent *)

(** [class HistoryAgent]: the three wrappers, the context, and the
    instructions handed to the base class. *)
Record HistoryAgent := mkHistoryAgent {
  gemini_llm : GeminiLLM;
  gladia_stt : GladiaSTT;
  minimax_tts : MinimaxTTS;
  context : string;
  instructions : string
}.

(** The indentation the text blocks of the source carry. *)
Definition ind : string := "        ".

Definition base_instructions : string :=
  String.concat nl
    [ EmptyString;
      ind +:+ "You are a knowledgeable and enthusiastic history expert specializing in historical places, events, and cultural heritage.";
      ind;
      ind +:+ "Your role:";
      ind +:+ "- Share fascinating historical facts, stories, and insights";
      ind +:+ "- Help users discover the rich history of places around the world";
      ind +:+ "- Provide context about historical events, figures, and periods";
      ind +:+ "- Make history engaging and accessible through vivid storytelling";
      ind +:+ "- Connect past events to their modern significance";
      ind;
      ind +:+ "Guidelines:";
      ind +:+ "- Be passionate and engaging about historical topics";
      ind +:+ "- Provide specific dates, names, and details when possible";
      ind +:+ "- Use storytelling to bring historical events to life";
      ind +:+ "- Encourage curiosity about history and cultural heritage";
      ind +:+ "- If you don't know something specific, admit it but offer related information";
      ind +:+ "- Keep responses conversational and informative";
      ind ].

(** The process environment read by [os.getenv]. *)
Abbreviation Env := (gmap string string).

Definition getenv (env : Env) (name : string) : option string := env !! name.

(** [HistoryAgent.__init__]. Loading the voice-activity detector and the
    constructor of the base class belong to the host library and return;
    the three [_custom_*] methods and the two tools it is handed are the
    methods below. *)
Definition HistoryAgent_init (env : Env) (ctx : option string)
  : PyResult HistoryAgent :=
  let gemini_key := getenv env "GEMINI_API_KEY" in
  let gladia_key := getenv env "GLADIA_API_KEY" in
  let minimax_key := getenv env "MINIMAX_API_KEY" in
  if negb (forallb truthy_opt [gemini_key; gladia_key; minimax_key]) then
    Raise (mkExc "ValueError" "Missing required API keys. Check your .env file.")
  else
    let self_context := if truthy_opt ctx then default EmptyString ctx
                        else EmptyString in
    let instr :=
      if truthy self_context
      then base_instructions +:+ nl +:+ nl
           +:+ "Additional context for this conversation:" +:+ nl
           +:+ self_context
      else base_instructions in
    Return {| gemini_llm := GeminiLLM_init (default EmptyString gemini_key)
                              default_model;
              gladia_stt := GladiaSTT_init (default EmptyString gladia_key);
              minimax_tts := MinimaxTTS_init (default EmptyString minimax_key);
              context := self_context;
              instructions := instr |}.

(** The lines of the research template after the one that names the topic. *)
Definition historical_info_body : list string :=
  [ ind;
    ind +:+ "Include:";
    ind +:+ "- Key historical facts and timeline";
    ind +:+ "- Important figures and events";
    ind +:+ "- Cultural and architectural significance";
    ind +:+ "- Interesting stories or legends";
    ind +:+ "- Modern-day relevance or status";
    ind;
    ind +:+ "Make it engaging and educational, suitable for someone curious about history.";
    ind ].

(** The research prompt of [get_historical_info]: the text block opens
    with a line feed, names the topic on its first line and closes with an
    indented empty line. *)
Definition historical_info_prompt (place_or_event : string) : string :=
  String.concat nl
    (EmptyString
     :: (ind +:+ "Provide comprehensive historical information about: "
             +:+ place_or_event)
     :: historical_info_body).

(** The lines of the era template after the one that names the period. *)
Definition time_period_body : list string :=
  [ ind;
    ind +:+ "Include:";
    ind +:+ "- Major events and developments";
    ind +:+ "- Daily life and society";
    ind +:+ "- Important figures and leaders";
    ind +:+ "- Cultural achievements and innovations";
    ind +:+ "- Lasting impact on modern world";
    ind;
    ind +:+ "Make it vivid and immersive, as if taking someone on a journey through time.";
    ind ].

(** The prompt of [explore_time_period]. *)
Definition time_period_prompt (time_period : string) : string :=
  String.concat nl
    (EmptyString
     :: (ind +:+ "Provide an engaging overview of the historical period: "
             +:+ time_period)
     :: time_period_body).

Definition historical_info_apology (place_or_event : string) : string :=
  "I encountered an issue researching " +:+ place_or_event
  +:+ ". Let me share what I know from my training data instead.".

Definition time_period_apology (time_period : string) : string :=
  "I had trouble exploring that time period in detail. Let me share what I know about "
  +:+ time_period +:+ " from my knowledge.".

Definition context_greeting (ctx : string) : string :=
  "Hello! I'm your history guide. I have some context about " +:+ ctx
  +:+ ". " +:+ "What would you like to explore about history today?".

Definition generic_greeting : string :=
  "Hello! I'm your personal history expert. I love sharing fascinating stories "
  +:+ "about historical places, events, and cultures. What historical topic interests you?".

(** A one-message history: [[{"role": "user", "content": prompt}]]. *)
Definition user_message (prompt : string) : Msg :=
  {[ "role" := "user"; "content" := prompt ]}.

Section Agent.

Context {Tool : Type}.
Variable model_reply :
  list (Handle * string) -> Handle -> string -> PyResult Response.
Variable post : Request -> PyResult HttpResponse.

(** A method of [self.gemini_llm], run from a method of the agent. *)
Definition on_gemini_llm {A} (m : M (GeminiLLM * World) A)
  : M (HistoryAgent * World) A :=
  zoom (fun st => (gemini_llm (fst st), snd st))
       (fun t st => ({| gemini_llm := fst t;
                        gladia_stt := gladia_stt (fst st);
                        minimax_tts := minimax_tts (fst st);
                        context := context (fst st);
                        instructions := instructions (fst st) |}, snd t))
       m.

(** [self.session.say(text, allow_interruptions=..)]. *)
Definition session_say (text : string) (allow : bool)
  : M (HistoryAgent * World) unit :=
  fun '(self, w) =>
    (Return tt,
     (self, {| sessions_started := sessions_started w; sent := sent w;
               said := said w ++ [ {| utterance_text := text;
                                      allow_interruptions := allow |} ] |})).

Definition _custom_stt (audio_data : bytes) : M (HistoryAgent * World) json :=
  let* st := get in recognize post (gladia_stt (fst st)) audio_data.

Definition _custom_llm (messages : list Msg) (tools : option (list Tool))
  : M (HistoryAgent * World) Reply :=
  on_gemini_llm (chat_completion model_reply messages tools).

Definition _custom_tts (text : string) : M (HistoryAgent * World) bytes :=
  let* st := get in synthesize post (minimax_tts (fst st)) text.

(** [HistoryAgent.get_historical_info]. *)
Definition get_historical_info (place_or_event : string)
  : M (HistoryAgent * World) string :=
  let prompt := historical_info_prompt place_or_event in
  try_except
    (let* response :=
       on_gemini_llm (chat_completion (Tool := Tool) model_reply
                        [user_message prompt] None) in
     lift_result (reply_content response))
    (fun e => ret (historical_info_apology place_or_event)).

(** [HistoryAgent.explore_time_period]. *)
Definition explore_time_period (time_period : string)
  : M (HistoryAgent * World) string :=
  let prompt := time_period_prompt time_period in
  try_except
    (let* response :=
       on_gemini_llm (chat_completion (Tool := Tool) model_reply
                        [user_message prompt] None) in
     lift_result (reply_content response))
    (fun e => ret (time_period_apology time_period)).

(** [HistoryAgent.on_enter]. *)
Definition on_enter : M (HistoryAgent * World) unit :=
  let* st := get in
  if truthy (context (fst st)) then
    session_say (context_greeting (context (fst st))) true
  else
    session_say generic_greeting true.

(** The calls the host session makes on an agent. *)
Inductive AgentCall : Type :=
| CallStt (audio_data : bytes)
| CallLlm (messages : list Msg) (tools : option (list Tool))
| CallTts (text : string)
| CallGetHistoricalInfo (place_or_event : string)
| CallExploreTimePeriod (time_period : string)
| CallOnEnter.

(** The store after a call, whatever it returned. *)
Definition perform (c : AgentCall) (st : HistoryAgent * World)
  : HistoryAgent * World :=
  match c with
  | CallStt audio_data => snd (_custom_stt audio_data st)
  | CallLlm messages tools => snd (_custom_llm messages tools st)
  | CallTts text => snd (_custom_tts text st)
  | CallGetHistoricalInfo place_or_event =>
      snd (get_historical_info place_or_event st)
  | CallExploreTimePeriod time_period =>
      snd (explore_time_period time_period st)
  | CallOnEnter => snd (on_enter st)
  end.

Definition perform_all (cs : list AgentCall) (st : HistoryAgent * World)
  : HistoryAgent * World :=
  fold_left (fun st c => perform c st) cs st.

End Agent.

(** Two agents that differ at most in the chat handle of the Gemini wrapper. *)
Definition same_but_chat (a b : HistoryAgent) : Prop :=
  model (gemini_llm a) = model (gemini_llm b)
  /\ gladia_stt a = gladia_stt b
  /\ minimax_tts a = minimax_tts b
  /\ context a = context b
  /\ instructions a = instructions b.


(** ** The underlying model call of one [chat_completion] *)

(** The handle a call goes through: the one kept in [self.chat], or the one
    [start_chat] is about to build. *)
Definition handle_for (st : GeminiLLM * World) : Handle :=
  match chat (fst st) with
  | Some h => h
  | None => sessions_started (snd st)
  end.

(** What the model does when the call reaches it: [send_message] on the
    flattened prompt, then the text of the response. *)
Definition model_call
  (model_reply : list (Handle * string) -> Handle -> string -> PyResult Response)
  (messages : list Msg) (st : GeminiLLM * World) : PyResult string :=
  match model_reply (sent (snd st)) (handle_for st) (_convert_messages messages) with
  | Return response => text response
  | Raise e => Raise e
  end.

Definition error_apology (e : PyException) : string :=
  "I apologize, but I encountered an error: " +:+ str e.

(** The content of the reply of a call, from what the model did. *)
Definition reply_text (outcome : PyResult string) : string :=
  match outcome with
  | Return t => t
  | Raise e => error_apology e
  end.

(** The store a call leaves: the handle is kept, a session was started
    only if none was kept, and the prompt was sent once. *)
Definition store_after (messages : list Msg) (st : GeminiLLM * World)
  : GeminiLLM * World :=
  ({| model := model (fst st); chat := Some (handle_for st) |},
   {| sessions_started :=
        match chat (fst st) with
        | Some _ => sessions_started (snd st)
        | None => S (sessions_started (snd st))
        end;
      sent := sent (snd st) ++ [(handle_for st, _convert_messages messages)];
      said := said (snd st) |}).

(** The three environment variables [HistoryAgent.__init__] reads. *)
Definition required_keys : list string :=
  ["GEMINI_API_KEY"; "GLADIA_API_KEY"; "MINIMAX_API_KEY"].

(** A key that is set to a text that is not empty. *)
Definition usable (env : Env) (name : string) : Prop :=
  exists v, env !! name = Some v /\ v <> EmptyString.

Definition missing_keys_error : PyException :=
  mkExc "ValueError" "Missing required API keys. Check your .env file.".


(** The section headers of the two templates. *)
Definition historical_info_sections : list string :=
  [ "Key historical facts and timeline";
    "Important figures and events";
    "Cultural and architectural significance";
    "Interesting stories or legends";
    "Modern-day relevance or status" ].

Definition time_period_sections : list string :=
  [ "Major events and developments";
    "Daily life and society";
    "Important figures and leaders";
    "Cultural achievements and innovations";
    "Lasting impact on modern world" ].

(** The requests the two wrappers build. *)
Definition transcription_request (self : GladiaSTT) (audio_data : bytes)
  : Request :=
  {| url := stt_base_url self +:+ "/v2/transcription";
     headers := [("X-Gladia-Key", stt_api_key self)];
     body := FormData [("audio", FileField audio_data "audio.wav" "audio/wav");
                       ("language", TextField "en")] |}.

Definition synthesis_request (self : MinimaxTTS) (text : string) : Request :=
  {| url := tts_base_url self +:+ "/v1/text_to_speech";
     headers := [("Authorization", "Bearer " +:+ tts_api_key self);
                 ("Content-Type", "application/json")];
     body := JsonBody (JObject [("text", JString text);
                                ("voice_setting", voice_setting);
                                ("audio_setting", audio_setting)]) |}.

(** The reply [{"transcription": {"full_transcript": "hello"}}]. *)
Definition hello_reply : json :=
  JObject [("transcription", JObject [("full_transcript", JString "hello")])].

(** The greeting [on_enter] picks for a context. *)
Definition greeting_for (ctx : string) : string :=
  if truthy ctx then context_greeting ctx else generic_greeting.

(** ** Concrete inputs *)

Definition empty_world : World :=
  {| sessions_started := 0; sent := []; said := [] |}.

Definition full_env : Env :=
  {[ "GEMINI_API_KEY" := "g-key"; "GLADIA_API_KEY" := "s-key";
     "MINIMAX_API_KEY" := "t-key" ]}.

(** Every key is set, the Gemini one to the empty text. *)
Definition empty_key_env : Env :=
  {[ "GEMINI_API_KEY" := EmptyString; "GLADIA_API_KEY" := "s-key";
     "MINIMAX_API_KEY" := "t-key" ]}.

(** The agent [HistoryAgent()] builds in [full_env]. *)
Definition rome_agent : HistoryAgent :=
  {| gemini_llm := GeminiLLM_init "g-key" default_model;
     gladia_stt := GladiaSTT_init "s-key";
     minimax_tts := MinimaxTTS_init "t-key";
     context := EmptyString;
     instructions := base_instructions |}.

(** A model whose every call raises. *)
Definition failing_model
  : list (Handle * string) -> Handle -> string -> PyResult Response :=
  fun _ _ _ => Raise (mkExc "RuntimeError" "boom").

(** A model that answers every prompt with the same text. *)
Definition constant_model (answer : string)
  : list (Handle * string) -> Handle -> string -> PyResult Response :=
  fun _ _ _ => Return {| text := Return answer |}.

Definition tool_message : Msg := {[ "role" := "tool"; "content" := "42" ]}.
Definition system_message : Msg :=
  {[ "role" := "system"; "content" := "Be brief." ]}.
Definition bare_message : Msg := {[ "content" := "Hello" ]}.
Definition empty_assistant_message : Msg := {[ "role" := "assistant" ]}.


Definition riff_audio : bytes := [x52; x49; x46; x46].

Definition connection_error : PyException :=
  mkExc "ClientConnectionError" "Cannot connect to host".

Definition decode_error : PyException :=
  mkExc "ContentTypeError" "Attempt to decode JSON with unexpected mimetype".

(** Endpoints: one that cannot be reached, and one that replies. *)
Definition unreachable_endpoint : Request -> PyResult HttpResponse :=
  fun _ => Raise connection_error.

Definition replying_endpoint (response : HttpResponse)
  : Request -> PyResult HttpResponse :=
  fun _ => Return response.

Definition server_error_response : HttpResponse :=
  {| status := 500; response_json := Raise decode_error;
     response_read := Return [] |}.

Definition undecodable_response : HttpResponse :=
  {| status := 200; response_json := Raise decode_error;
     response_read := Raise connection_error |}.

Definition json_response (reply : json) : HttpResponse :=
  {| status := 200; response_json := Return reply; response_read := Return [] |}.

Definition audio_response (raw : bytes) : HttpResponse :=
  {| status := 200; response_json := Raise decode_error;
     response_read := Return raw |}.

(** A reply of the transcription endpoint without the transcript. *)
Definition error_reply : json := JObject [("error", JString "quota exceeded")].


(** ** The room metadata *)

Section Entrypoint.

Context {S : Type}.

(** [json.loads]: the decoded value, or the exception of the decoder. *)
Variable json_loads : string -> PyResult json.

(** The context [entrypoint] hands to [HistoryAgent]: [None] (here [JNull]),
    or the member ['context'] of the room metadata, read under a bare
    [except]. The metadata is [None] when the room has no such attribute. *)
Definition entrypoint_context (metadata : option string) : M S json :=
  let context := JNull in
  if truthy_opt metadata then
    try_except
      (let* decoded := lift_result (json_loads (default EmptyString metadata)) in
       let* found := lift_result (py_get decoded "context" JNull) in
       ret found)
      (fun _ => ret context)
  else ret context.

End Entrypoint.

(** ** Histories and sessions of calls *)

(** A message with a role and a content and no other key. *)
Definition text_message (role_name content_text : string) : Msg :=
  {[ "role" := role_name; "content" := content_text ]}.

(** Whether the prompt renders a message: its role has a label. *)
Definition is_rendered (msg : Msg) : bool :=
  match role_label (msg_role msg) with
  | Some _ => true
  | None => false
  end.

(** The messages a call on the agent hands to [chat_completion], for the
    calls that reach it. *)
Definition model_messages {Tool : Type} (c : AgentCall (Tool := Tool))
  : option (list Msg) :=
  match c with
  | CallLlm messages _ => Some messages
  | CallGetHistoricalInfo place_or_event =>
      Some [user_message (historical_info_prompt place_or_event)]
  | CallExploreTimePeriod time_period =>
      Some [user_message (time_period_prompt time_period)]
  | _ => None
  end.

Definition is_on_enter {Tool : Type} (c : AgentCall (Tool := Tool)) : bool :=
  match c with
  | CallOnEnter => true
  | _ => false
  end.

(** The Gemini wrapper of an agent with the world, as its methods see it. *)
Definition llm_store (st : HistoryAgent * World) : GeminiLLM * World :=
  (gemini_llm (fst st), snd st).

(** What [recognize] and [synthesize] make of the reply of the endpoint. *)
Definition transcript_of (outcome : PyResult HttpResponse) : json :=
  match outcome with
  | Raise _ => JString EmptyString
  | Return response =>
      if Z.eqb (status response) 200 then
        match response_json response with
        | Raise _ => JString EmptyString
        | Return result => default (JString EmptyString) (full_transcript result)
        end
      else JString EmptyString
  end.

Definition audio_of (outcome : PyResult HttpResponse) : bytes :=
  match outcome with
  | Raise _ => []
  | Return response =>
      if Z.eqb (status response) 200 then
        match response_read response with
        | Raise _ => []
        | Return audio_data => audio_data
        end
      else []
  end.

(** The text the instructions gain from a context. *)
Definition context_section (ctx : string) : string :=
  nl +:+ nl +:+ "Additional context for this conversation:" +:+ nl +:+ ctx.

(** A decoder that knows three documents and fails on any other. *)
Definition sample_loads (text : string) : PyResult json :=
  if String.eqb text "{}" then Return (JObject [])
  else if String.eqb text "ctx" then
    Return (JObject [("context", JString "the Colosseum"); ("lang", JString "en")])
  else if String.eqb text "[1]" then Return (JArray [JNumber "1"])
  else Raise (mkExc "JSONDecodeError" "Expecting value").

(** * Properties *)

Lemma prefix_app (n post : string) : String.prefix n (n +:+ post) = true.
Proof.
  induction n as [|c n IH]; simpl.
  - by destruct post.
  - rewrite IH. by destruct (Ascii.ascii_dec c c).
Qed.

Lemma contains_prefix (n h : string) :
  String.prefix n h = true -> contains n h = true.
Proof. intros H. destruct h; cbn [contains]; by rewrite H. Qed.

Lemma contains_app (n pre post : string) :
  contains n (pre +:+ n +:+ post) = true.
Proof.
  induction pre as [|c pre IH].
  - change (contains n (n +:+ post) = true).
    apply contains_prefix, prefix_app.
  - change (contains n (String c (pre +:+ n +:+ post)) = true).
    cbn [contains]. rewrite IH. by destruct (String.prefix n _).
Qed.

Lemma string_app_nil_r (x : string) : x +:+ EmptyString = x.
Proof.
  induction x as [|a x IH]; [done|].
  change (String a (x +:+ EmptyString) = String a x). by rewrite IH.
Qed.

Lemma contains_suffix (n pre : string) : contains n (pre +:+ n) = true.
Proof.
  rewrite <- (string_app_nil_r n) at 2. apply contains_app.
Qed.

Lemma convert_step_app (parts : list string) (msg : Msg) :
  convert_step parts msg = parts ++ option_list (rendered_line msg).
Proof.
  unfold convert_step, rendered_line, role_label, msg_role, msg_content.
  repeat case_match; simplify_eq/=; by rewrite ?app_nil_r.
Qed.

Lemma fold_convert_step (messages : list Msg) (parts : list string) :
  fold_left convert_step messages parts
  = parts ++ omap rendered_line messages.
Proof.
  revert parts. induction messages as [|m ms IH]; intros parts; simpl.
  - by rewrite app_nil_r.
  - rewrite IH, convert_step_app.
    destruct (rendered_line m); simpl; by rewrite <- ?app_assoc.
Qed.

(** ** Flattening *)

Lemma prompt_lines_omap (messages : list Msg) :
  prompt_lines messages = omap rendered_line messages.
Proof. unfold prompt_lines. by rewrite fold_convert_step. Qed.

Lemma prompt_lines_app (before after : list Msg) :
  prompt_lines (before ++ after) = prompt_lines before ++ prompt_lines after.
Proof. rewrite !prompt_lines_omap. apply omap_app. Qed.

Lemma prompt_lines_cons (msg : Msg) (after : list Msg) :
  prompt_lines (msg :: after)
  = option_list (rendered_line msg) ++ prompt_lines after.
Proof. rewrite !prompt_lines_omap. simpl. by destruct (rendered_line msg). Qed.

Lemma convert_messages_lines (messages : list Msg) :
  _convert_messages messages = String.concat nl (prompt_lines messages).
Proof. reflexivity. Qed.

Lemma rendered_role_line (msg : Msg) :
  rendered_role msg -> exists label,
    role_label (msg_role msg) = Some label
    /\ rendered_line msg = Some (label +:+ ": " +:+ msg_content msg).
Proof.
  unfold rendered_role, rendered_line.
  intros [H|[H|H]]; rewrite H; eexists; split; reflexivity.
Qed.

Lemma role_label_None (r : string) :
  r <> "system" -> r <> "user" -> r <> "assistant" -> role_label r = None.
Proof.
  intros H1 H2 H3. unfold role_label.
  destruct (String.eqb_spec r "system"); [done|].
  destruct (String.eqb_spec r "user"); [done|].
  by destruct (String.eqb_spec r "assistant").
Qed.

(** C5, as the code has it: for every message sequence whose messages all
    have one of the roles system, user and assistant (a message without a
    role key counts as user), the prompt is the newline-join of one line
    per message, in the order of the messages, and the line of a message is
    its capitalized role label, a colon and a space, and its content. *)
Theorem convert_messages_rendered_roles (messages : list Msg) :
  Forall rendered_role messages ->
  exists lines,
    _convert_messages messages = String.concat nl lines
    /\ prompt_lines messages = lines
    /\ length lines = length messages
    /\ Forall2 (fun msg line =>
                  exists label,
                    role_label (msg_role msg) = Some label
                    /\ (label = "System" \/ label = "User" \/ label = "Assistant")
                    /\ line = label +:+ ": " +:+ msg_content msg)
               messages lines.
Proof.
  intros Hroles. exists (prompt_lines messages).
  split; [reflexivity|]. split; [reflexivity|].
  induction Hroles as [|msg rest Hmsg _ [IHlen IH]].
  - split; [reflexivity | constructor].
  - rewrite prompt_lines_cons.
    destruct (rendered_role_line msg Hmsg) as (label & Hlabel & Hline).
    rewrite Hline. simpl. split; [by rewrite IHlen|].
    constructor; [|exact IH].
    exists label. split; [exact Hlabel|]. split; [|reflexivity].
    unfold role_label in Hlabel.
    repeat case_match; simplify_eq; auto.
Qed.

(** C10: a message whose role is none of system, user and assistant adds no
    line to the prompt; a message without a role key is rendered with the
    label User; a message without a content key is rendered with an empty
    content. In each case the prompt [_convert_messages] returns is the
    newline-join of the lines of the messages before, the line of this
    message (none, [User: <content>], [<Label>: ]) and the lines of the
    messages after, the line of a message being its label, a colon, a space
    and its content. *)
Theorem convert_messages_edge_cases (before after : list Msg) (msg : Msg) :
  (forall r, msg !! "role" = Some r ->
             r <> "system" -> r <> "user" -> r <> "assistant" ->
     prompt_lines (before ++ msg :: after) = prompt_lines (before ++ after)
     /\ _convert_messages (before ++ msg :: after)
        = _convert_messages (before ++ after)
     /\ _convert_messages (before ++ msg :: after)
        = String.concat nl (omap rendered_line before ++ omap rendered_line after))
  /\ (msg !! "role" = None ->
      prompt_lines (before ++ msg :: after)
      = prompt_lines before ++ ("User: " +:+ msg_content msg)
                            :: prompt_lines after
      /\ _convert_messages (before ++ msg :: after)
         = String.concat nl
             (omap rendered_line before
              ++ ("User: " +:+ msg_content msg) :: omap rendered_line after))
  /\ (forall label, msg !! "content" = None ->
      role_label (msg_role msg) = Some label ->
      prompt_lines (before ++ msg :: after)
      = prompt_lines before ++ (label +:+ ": ") :: prompt_lines after
      /\ _convert_messages (before ++ msg :: after)
         = String.concat nl
             (omap rendered_line before
              ++ (label +:+ ": ") :: omap rendered_line after)).
Proof.
  split; [|split].
  - intros r Hr H1 H2 H3.
    assert (prompt_lines (before ++ msg :: after)
            = prompt_lines (before ++ after)) as E.
    { rewrite !prompt_lines_app, prompt_lines_cons.
      unfold rendered_line, msg_role. rewrite Hr. simpl.
      by rewrite role_label_None. }
    split; [exact E|]. split; [by rewrite !convert_messages_lines, E|].
    by rewrite convert_messages_lines, E, prompt_lines_app, !prompt_lines_omap.
  - intros Hnone.
    assert (prompt_lines (before ++ msg :: after)
            = prompt_lines before ++ ("User: " +:+ msg_content msg)
                                  :: prompt_lines after) as E.
    { rewrite prompt_lines_app, prompt_lines_cons.
      unfold rendered_line, msg_role. by rewrite Hnone. }
    split; [exact E|].
    by rewrite convert_messages_lines, E, !prompt_lines_omap.
  - intros label Hnone Hlabel.
    assert (prompt_lines (before ++ msg :: after)
            = prompt_lines before ++ (label +:+ ": ") :: prompt_lines after) as E.
    { rewrite prompt_lines_app, prompt_lines_cons.
      unfold rendered_line. rewrite Hlabel. unfold msg_content.
      by rewrite Hnone. }
    split; [exact E|].
    by rewrite convert_messages_lines, E, !prompt_lines_omap.
Qed.

(** ** The conversation adapter *)

Section GeminiProperties.

Context {Tool : Type}.
Variable model_reply :
  list (Handle * string) -> Handle -> string -> PyResult Response.

Implicit Types (messages : list Msg) (tools : option (list Tool)).
Implicit Types (st : GeminiLLM * World).

Lemma chat_completion_eq messages tools st :
  chat_completion model_reply messages tools st
  = (Return (assistant_reply (reply_text (model_call model_reply messages st))),
     store_after messages st).
Proof.
  destruct st as [[m c] w].
  unfold chat_completion, try_except, bind, chat_send_message, get,
    start_chat, set_chat, send_message, lift_result, ret, raise,
    model_call, store_after, handle_for, reply_text.
  destruct c as [h|]; simpl;
    destruct (model_reply _ _ _) as [[[t|e]]|e]; reflexivity.
Qed.

Lemma store_after_kept messages st h :
  chat (fst st) = Some h ->
  chat (fst (store_after messages st)) = Some h
  /\ sessions_started (snd (store_after messages st))
     = sessions_started (snd st).
Proof. intros H. unfold store_after, handle_for. simpl. by rewrite H. Qed.

Lemma run_calls_kept (calls : list (list Msg * option (list Tool))) st h :
  chat (fst st) = Some h ->
  chat (fst (run_calls model_reply calls st)) = Some h
  /\ model (fst (run_calls model_reply calls st)) = model (fst st)
  /\ sessions_started (snd (run_calls model_reply calls st))
     = sessions_started (snd st)
  /\ sent (snd (run_calls model_reply calls st))
     = sent (snd st)
       ++ map (fun c => (h, _convert_messages (fst c))) calls
  /\ said (snd (run_calls model_reply calls st)) = said (snd st).
Proof.
  revert st. induction calls as [|c calls IH]; intros st Hh.
  - simpl. by rewrite app_nil_r.
  - unfold run_calls in *. cbn [fold_left].
    rewrite chat_completion_eq. cbn [snd].
    destruct (store_after_kept (fst c) st h Hh) as [Hchat Hn].
    destruct (IH _ Hchat) as (E1 & E2 & E3 & E4 & E5).
    rewrite E1, E2, E3, E4, E5, Hn.
    unfold store_after, handle_for. rewrite Hh. simpl.
    by rewrite <- app_assoc.
Qed.

(** C1: [chat_completion] returns on every message sequence and whatever
    the model call does, never raising: the reply holds one message whose
    role is assistant; when the model call returns a text the content is
    that text, and when it raises the content is the apology ending in
    the text of the exception, which it therefore contains. *)
Theorem chat_completion_never_raises messages tools st :
  exists c,
    fst (chat_completion model_reply messages tools st)
    = Return {| choices :=
                  [ {| message := {| content := c; role := "assistant" |} |} ] |}
    /\ match model_call model_reply messages st with
       | Return t => c = t
       | Raise e =>
           c = "I apologize, but I encountered an error: " +:+ str e
           /\ contains (str e) c = true
       end.
Proof.
  rewrite chat_completion_eq.
  exists (reply_text (model_call model_reply messages st)).
  split; [reflexivity|].
  destruct (model_call model_reply messages st) as [t|e]; cbn [reply_text].
  - reflexivity.
  - split; [reflexivity|]. apply contains_suffix.
Qed.

(** C9: the result of [chat_completion], the store it leaves and the
    request it sends do not depend on [tools]: for any two values of the
    parameter, [None] included, the same prompt goes through the same
    handle, the prompt being the flattened messages alone. *)
Theorem chat_completion_ignores_tools messages tools1 tools2 st :
  chat_completion model_reply messages tools1 st
  = chat_completion model_reply messages tools2 st
  /\ sent (snd (snd (chat_completion model_reply messages tools1 st)))
     = sent (snd st) ++ [(handle_for st, _convert_messages messages)]
  /\ sent (snd (snd (chat_completion model_reply messages tools2 st)))
     = sent (snd st) ++ [(handle_for st, _convert_messages messages)].
Proof. by rewrite !chat_completion_eq. Qed.

End GeminiProperties.

Lemma run_calls_cons {Tool : Type}
  (model_reply : list (Handle * string) -> Handle -> string -> PyResult Response)
  (c : list Msg * option (list Tool)) (calls : list (list Msg * option (list Tool)))
  (st : GeminiLLM * World) :
  run_calls model_reply (c :: calls) st
  = run_calls model_reply calls (store_after (fst c) st).
Proof. unfold run_calls. cbn [fold_left]. by rewrite chat_completion_eq. Qed.

(** ** The endpoints *)

Section EndpointProperties.

Context {S : Type}.
Variable post : Request -> PyResult HttpResponse.

Lemma recognize_eq (self : GladiaSTT) (audio_data : bytes) (s : S) :
  recognize post self audio_data s
  = (Return
       match post (transcription_request self audio_data) with
       | Raise _ => JString EmptyString
       | Return response =>
           if Z.eqb (status response) 200 then
             match response_json response with
             | Raise _ => JString EmptyString
             | Return result =>
                 default (JString EmptyString) (full_transcript result)
             end
           else JString EmptyString
       end, s).
Proof.
  unfold recognize, try_except, bind, lift_result, ret.
  fold (transcription_request self audio_data).
  destruct (post _) as [response|e]; [|reflexivity].
  destruct (Z.eqb (status response) 200); [|reflexivity].
  destruct (response_json response) as [result|e]; [|reflexivity].
  destruct result as [| | | | |members]; try reflexivity.
  cbn [py_get full_transcript].
  by destruct (dict_lookup "transcription" members) as [[| | | | |inner]|].
Qed.

Lemma synthesize_eq (self : MinimaxTTS) (text : string) (s : S) :
  synthesize post self text s
  = (Return
       match post (synthesis_request self text) with
       | Raise _ => []
       | Return response =>
           if Z.eqb (status response) 200 then
             match response_read response with
             | Raise _ => []
             | Return audio_data => audio_data
             end
           else []
       end, s).
Proof.
  unfold synthesize, try_except, bind, lift_result, ret.
  fold (synthesis_request self text).
  destruct (post _) as [response|e]; [|reflexivity].
  destruct (Z.eqb (status response) 200); [|reflexivity].
  by destruct (response_read response).
Qed.

(** C2: [recognize] returns on every audio input, never raising, and the
    store is as before. It returns the empty text when the transport fails,
    when the status is not 200, when the body does not decode, and when the
    decoded value lacks the member [transcription.full_transcript]; with
    status 200 it returns that member when it is there, so [hello] for the
    body [{"transcription": {"full_transcript": "hello"}}]. *)
Theorem recognize_fail_soft (self : GladiaSTT) (audio_data : bytes) (s : S) :
  let request := transcription_request self audio_data in
  let result := recognize post self audio_data s in
  (exists transcript, result = (Return transcript, s))
  /\ (forall e, post request = Raise e ->
        result = (Return (JString EmptyString), s))
  /\ (forall response, post request = Return response ->
        status response <> 200%Z ->
        result = (Return (JString EmptyString), s))
  /\ (forall response e, post request = Return response ->
        status response = 200%Z -> response_json response = Raise e ->
        result = (Return (JString EmptyString), s))
  /\ (forall response reply, post request = Return response ->
        status response = 200%Z -> response_json response = Return reply ->
        full_transcript reply = None ->
        result = (Return (JString EmptyString), s))
  /\ (forall response reply transcript, post request = Return response ->
        status response = 200%Z -> response_json response = Return reply ->
        full_transcript reply = Some transcript ->
        result = (Return transcript, s))
  /\ (forall response, post request = Return response ->
        status response = 200%Z -> response_json response = Return hello_reply ->
        result = (Return (JString "hello"), s)).
Proof.
  intros request result. subst request result. rewrite recognize_eq.
  split; [by eexists|].
  split; [by intros e ->|].
  split.
  { intros response -> Hstatus.
    by destruct (Z.eqb_spec (status response) 200). }
  split; [by intros response e -> -> ->|].
  split; [by intros response reply -> -> -> ->|].
  split; [by intros response reply transcript -> -> -> ->|].
  by intros response -> -> ->.
Qed.

(** C3: [synthesize] returns on every text, never raising, and the store is
    as before. It returns no bytes when the transport fails (on the request
    or while the body is read) and when the status is not 200; with status
    200 it returns the bytes of the body as they were read. *)
Theorem synthesize_fail_soft (self : MinimaxTTS) (text : string) (s : S) :
  let request := synthesis_request self text in
  let result := synthesize post self text s in
  (exists audio, result = (Return audio, s))
  /\ (forall e, post request = Raise e -> result = (Return [], s))
  /\ (forall response, post request = Return response ->
        status response <> 200%Z -> result = (Return [], s))
  /\ (forall response e, post request = Return response ->
        status response = 200%Z -> response_read response = Raise e ->
        result = (Return [], s))
  /\ (forall response raw, post request = Return response ->
        status response = 200%Z -> response_read response = Return raw ->
        result = (Return raw, s)).
Proof.
  intros request result. subst request result. rewrite synthesize_eq.
  split; [by eexists|].
  split; [by intros e ->|].
  split.
  { intros response -> Hstatus.
    by destruct (Z.eqb_spec (status response) 200). }
  split; [by intros response e -> -> ->|].
  by intros response raw -> -> ->.
Qed.

End EndpointProperties.

(** ** The agent *)

Lemma string_app_assoc (a b c : string) : (a +:+ b) +:+ c = a +:+ b +:+ c.
Proof.
  induction a as [|x a IH]; [done|].
  change (String x ((a +:+ b) +:+ c) = String x (a +:+ b +:+ c)).
  by rewrite IH.
Qed.

Lemma contains_skip (n a b : string) :
  contains n b = true -> contains n (a +:+ b) = true.
Proof.
  intros H. induction a as [|x a IH]; [exact H|].
  change (contains n (String x (a +:+ b)) = true).
  cbn [contains]. rewrite IH. by destruct (String.prefix n _).
Qed.

Lemma convert_user_message (prompt : string) :
  _convert_messages [user_message prompt] = "User: " +:+ prompt.
Proof. reflexivity. Qed.

Lemma historical_info_prompt_shape (place_or_event : string) :
  historical_info_prompt place_or_event
  = (nl +:+ ind +:+ "Provide comprehensive historical information about: ")
    +:+ place_or_event +:+ (nl +:+ String.concat nl historical_info_body).
Proof. reflexivity. Qed.

Lemma time_period_prompt_shape (time_period : string) :
  time_period_prompt time_period
  = (nl +:+ ind +:+ "Provide an engaging overview of the historical period: ")
    +:+ time_period +:+ (nl +:+ String.concat nl time_period_body).
Proof. reflexivity. Qed.

Lemma historical_info_prompt_contents (place_or_event : string) :
  contains place_or_event (historical_info_prompt place_or_event) = true
  /\ Forall (fun header =>
               contains header (historical_info_prompt place_or_event) = true)
            historical_info_sections.
Proof.
  rewrite historical_info_prompt_shape. split; [apply contains_app|].
  rewrite <- string_app_assoc.
  repeat constructor; apply contains_skip; vm_compute; reflexivity.
Qed.

Lemma time_period_prompt_contents (time_period : string) :
  contains time_period (time_period_prompt time_period) = true
  /\ Forall (fun header =>
               contains header (time_period_prompt time_period) = true)
            time_period_sections.
Proof.
  rewrite time_period_prompt_shape. split; [apply contains_app|].
  rewrite <- string_app_assoc.
  repeat constructor; apply contains_skip; vm_compute; reflexivity.
Qed.

Section AgentProperties.

Context {Tool : Type}.
Variable model_reply :
  list (Handle * string) -> Handle -> string -> PyResult Response.
Variable post : Request -> PyResult HttpResponse.

Implicit Types (agent : HistoryAgent) (w : World).

Lemma on_gemini_llm_chat_completion agent w messages
  (tools : option (list Tool)) :
  on_gemini_llm (chat_completion model_reply messages tools) (agent, w)
  = (Return (assistant_reply
               (reply_text (model_call model_reply messages (gemini_llm agent, w)))),
     ({| gemini_llm := fst (store_after messages (gemini_llm agent, w));
         gladia_stt := gladia_stt agent;
         minimax_tts := minimax_tts agent;
         context := context agent;
         instructions := instructions agent |},
      snd (store_after messages (gemini_llm agent, w)))).
Proof.
  unfold on_gemini_llm, zoom. cbn [fst snd].
  by rewrite chat_completion_eq.
Qed.

Lemma get_historical_info_eq agent w (place_or_event : string) :
  let messages := [user_message (historical_info_prompt place_or_event)] in
  get_historical_info (Tool := Tool) model_reply place_or_event (agent, w)
  = (Return (reply_text (model_call model_reply messages (gemini_llm agent, w))),
     ({| gemini_llm := fst (store_after messages (gemini_llm agent, w));
         gladia_stt := gladia_stt agent;
         minimax_tts := minimax_tts agent;
         context := context agent;
         instructions := instructions agent |},
      snd (store_after messages (gemini_llm agent, w)))).
Proof.
  intros messages. unfold get_historical_info, try_except, bind.
  by rewrite on_gemini_llm_chat_completion.
Qed.

Lemma explore_time_period_eq agent w (time_period : string) :
  let messages := [user_message (time_period_prompt time_period)] in
  explore_time_period (Tool := Tool) model_reply time_period (agent, w)
  = (Return (reply_text (model_call model_reply messages (gemini_llm agent, w))),
     ({| gemini_llm := fst (store_after messages (gemini_llm agent, w));
         gladia_stt := gladia_stt agent;
         minimax_tts := minimax_tts agent;
         context := context agent;
         instructions := instructions agent |},
      snd (store_after messages (gemini_llm agent, w)))).
Proof.
  intros messages. unfold explore_time_period, try_except, bind.
  by rewrite on_gemini_llm_chat_completion.
Qed.

Lemma on_enter_eq agent w :
  on_enter (agent, w)
  = (Return tt,
     (agent, {| sessions_started := sessions_started w; sent := sent w;
                said := said w ++ [ {| utterance_text := greeting_for (context agent);
                                       allow_interruptions := true |} ] |})).
Proof.
  unfold on_enter, bind, get, greeting_for. cbn [fst].
  by destruct (truthy (context agent)).
Qed.

Lemma same_but_chat_refl agent : same_but_chat agent agent.
Proof. by repeat split. Qed.

Lemma same_but_chat_trans (a b c : HistoryAgent) :
  same_but_chat a b -> same_but_chat b c -> same_but_chat a c.
Proof.
  unfold same_but_chat. intros (?&?&?&?&?) (?&?&?&?&?).
  repeat split; congruence.
Qed.

Lemma perform_same_but_chat (c : AgentCall (Tool := Tool))
  (st : HistoryAgent * World) :
  same_but_chat (fst st) (fst (perform model_reply post c st)).
Proof.
  destruct st as [agent w].
  destruct c; unfold perform, _custom_stt, _custom_tts, _custom_llm.
  - unfold bind, get. cbn [fst]. rewrite recognize_eq. apply same_but_chat_refl.
  - rewrite on_gemini_llm_chat_completion. by repeat split.
  - unfold bind, get. cbn [fst]. rewrite synthesize_eq. apply same_but_chat_refl.
  - pose proof (get_historical_info_eq agent w place_or_event) as E.
    cbv zeta in E. rewrite E. by repeat split.
  - pose proof (explore_time_period_eq agent w time_period) as E.
    cbv zeta in E. rewrite E. by repeat split.
  - rewrite on_enter_eq. apply same_but_chat_refl.
Qed.

Lemma perform_all_same_but_chat (cs : list (AgentCall (Tool := Tool)))
  (st : HistoryAgent * World) :
  same_but_chat (fst st) (fst (perform_all model_reply post cs st)).
Proof.
  revert st. induction cs as [|c cs IH]; intros st.
  - apply same_but_chat_refl.
  - unfold perform_all in *. cbn [fold_left].
    eapply same_but_chat_trans; [apply perform_same_but_chat | apply IH].
Qed.

(** C6: the chat handle is created once. It is [None] when the wrapper is
    built; the first [chat_completion] creates it; after any number of
    calls that follow, the wrapper still holds that handle, every prompt
    of the session went through it, and [start_chat] ran once in all.
    No call on the agent changes any other field of the agent or of its
    wrappers. *)
Theorem chat_handle_created_once (api_key model_name : string) (w : World)
  (first : list Msg * option (list Tool))
  (rest : list (list Msg * option (list Tool))) :
  let fresh := GeminiLLM_init api_key model_name in
  let h := sessions_started w in
  let st1 := snd (chat_completion model_reply (fst first) (snd first) (fresh, w)) in
  let stN := run_calls model_reply (first :: rest) (fresh, w) in
  chat fresh = None
  /\ (chat (fst st1) = Some h
      /\ sessions_started (snd st1) = S (sessions_started w))
  /\ (chat (fst stN) = Some h
      /\ sessions_started (snd stN) = S (sessions_started w)
      /\ sent (snd stN)
         = sent w ++ map (fun c => (h, _convert_messages (fst c))) (first :: rest))
  /\ (forall (cs : list (AgentCall (Tool := Tool))) (st : HistoryAgent * World),
        same_but_chat (fst st) (fst (perform_all model_reply post cs st))).
Proof.
  intros fresh h st1 stN.
  split; [reflexivity|].
  split; [subst st1; by rewrite chat_completion_eq|].
  split; [|apply perform_all_same_but_chat].
  subst stN. rewrite run_calls_cons.
  destruct (run_calls_kept model_reply rest
              (store_after (fst first) (fresh, w)) h eq_refl)
    as (E1 & _ & E3 & E4 & _).
  rewrite E1, E3, E4. split; [reflexivity|]. split; [reflexivity|].
  cbn [store_after snd sent fst handle_for chat fresh GeminiLLM_init map].
  by rewrite <- app_assoc.
Qed.

(** C8: [on_enter] says one utterance, which may be interrupted, and
    nothing else changes. Its text is the greeting that mentions the
    context when the context is not empty, and the fixed generic greeting
    when it is; the two are never the same text. *)
Theorem on_enter_greets_once (agent : HistoryAgent) (w : World) :
  exists greeting,
    on_enter (agent, w)
    = (Return tt,
       (agent, {| sessions_started := sessions_started w; sent := sent w;
                  said := said w ++ [ {| utterance_text := greeting;
                                         allow_interruptions := true |} ] |}))
    /\ match context agent with
       | EmptyString => greeting = generic_greeting
       | String _ _ =>
           greeting = context_greeting (context agent)
           /\ contains (context agent) greeting = true
           /\ greeting <> generic_greeting
       end.
Proof.
  exists (greeting_for (context agent)). split; [apply on_enter_eq|].
  unfold greeting_for. destruct (context agent) as [|c ctx]; cbn [truthy].
  - reflexivity.
  - split; [reflexivity|]. split.
    + unfold context_greeting. apply contains_app.
    + unfold context_greeting, generic_greeting. intros H.
      apply (f_equal (String.get 16)) in H. vm_compute in H. discriminate.
Qed.

End AgentProperties.

(** X14: [get_historical_info] returns, whatever the model does, and
    reaches the model once, with a prompt that holds the topic and the
    section headers of its template; it returns what the adapter replied:
    the text of the model, or the apology of the adapter when the model
    call raised. *)
Lemma get_historical_info_one_call {Tool : Type}
  (model_reply : list (Handle * string) -> Handle -> string -> PyResult Response)
  (agent : HistoryAgent) (w : World) (place_or_event : string) :
  let prompt := historical_info_prompt place_or_event in
  let result :=
    get_historical_info (Tool := Tool) model_reply place_or_event (agent, w) in
  sent (snd (snd result))
  = sent w ++ [(handle_for (gemini_llm agent, w), "User: " +:+ prompt)]
  /\ contains place_or_event prompt = true
  /\ Forall (fun header => contains header prompt = true) historical_info_sections
  /\ fst result
     = Return (reply_text (model_call model_reply [user_message prompt]
                             (gemini_llm agent, w))).
Proof.
  intros prompt result. subst result.
  pose proof (get_historical_info_eq (Tool := Tool) model_reply agent w
                place_or_event) as E.
  cbv zeta in E. rewrite E.
  destruct (historical_info_prompt_contents place_or_event) as [Ht Hs].
  by repeat split.
Qed.

(** X15: [explore_time_period] returns, whatever the model does, and
    reaches the model once, with a prompt that holds the period and the
    section headers of its template; it returns what the adapter replied:
    the text of the model, or the apology of the adapter when the model
    call raised. *)
Lemma explore_time_period_one_call {Tool : Type}
  (model_reply : list (Handle * string) -> Handle -> string -> PyResult Response)
  (agent : HistoryAgent) (w : World) (time_period : string) :
  let prompt := time_period_prompt time_period in
  let result :=
    explore_time_period (Tool := Tool) model_reply time_period (agent, w) in
  sent (snd (snd result))
  = sent w ++ [(handle_for (gemini_llm agent, w), "User: " +:+ prompt)]
  /\ contains time_period prompt = true
  /\ Forall (fun header => contains header prompt = true) time_period_sections
  /\ fst result
     = Return (reply_text (model_call model_reply [user_message prompt]
                             (gemini_llm agent, w))).
Proof.
  intros prompt result. subst result.
  pose proof (explore_time_period_eq (Tool := Tool) model_reply agent w
                time_period) as E.
  cbv zeta in E. rewrite E.
  destruct (time_period_prompt_contents time_period) as [Ht Hs].
  by repeat split.
Qed.

(** C7, at a model call that raises: [get_historical_info("Rome")] and
    [explore_time_period("Ancient Rome")] return the apology of the
    adapter, which holds the text of the exception and does not name the
    topic; the [except] branch with the apology that names the topic is
    not reached, since [chat_completion] has already turned the exception
    into a reply. *)
Theorem tools_failure_returns_adapter_apology :
  fst (get_historical_info (Tool := unit) failing_model "Rome"
         (rome_agent, empty_world))
  = Return "I apologize, but I encountered an error: boom"
  /\ fst (explore_time_period (Tool := unit) failing_model "Ancient Rome"
            (rome_agent, empty_world))
     = Return "I apologize, but I encountered an error: boom"
  /\ contains "Rome" "I apologize, but I encountered an error: boom" = false
  /\ Return "I apologize, but I encountered an error: boom"
     <> Return (A := string) (historical_info_apology "Rome")
  /\ Return "I apologize, but I encountered an error: boom"
     <> Return (A := string) (time_period_apology "Ancient Rome").
Proof. repeat split; done. Qed.

(** ** Construction *)

Lemma truthy_opt_usable (env : Env) (name : string) :
  truthy_opt (getenv env name) = true <-> usable env name.
Proof.
  unfold usable, getenv. destruct (env !! name) as [[|c v]|]; simpl.
  - split; [done|]. intros (v & Hv & Hne). by simplify_eq.
  - split; [|done]. intros _. by eexists.
  - split; [done|]. by intros (v & Hv & _).
Qed.

(** C4, as the code has it: construction raises the configuration error
    when one of the three keys is absent from the environment, and also
    when one is set to the empty text; when the three keys are set to
    texts that are not empty it returns, with no chat handle yet and the
    context it was given (the empty text for [None]). *)
Theorem init_fails_iff_key_unusable (env : Env) (ctx : option string) :
  ((exists name, In name required_keys /\ env !! name = None) ->
     HistoryAgent_init env ctx = Raise missing_keys_error)
  /\ ((exists name, In name required_keys /\ env !! name = Some EmptyString) ->
        HistoryAgent_init env ctx = Raise missing_keys_error)
  /\ ((forall name, In name required_keys -> usable env name) ->
        exists agent,
          HistoryAgent_init env ctx = Return agent
          /\ chat (gemini_llm agent) = None
          /\ context agent = default EmptyString ctx).
Proof.
  assert (forall name, In name required_keys -> ~ usable env name ->
            HistoryAgent_init env ctx = Raise missing_keys_error) as Hbad.
  { intros name Hin Hun. unfold HistoryAgent_init.
    assert (truthy_opt (getenv env name) = false) as Hf.
    { destruct (truthy_opt (getenv env name)) eqn:E; [|done].
      by apply truthy_opt_usable in E. }
    cbn [forallb].
    destruct Hin as [<-|[<-|[<-|[]]]]; rewrite Hf;
      by rewrite ?andb_false_r. }
  split; [|split].
  - intros (name & Hin & Hnone). apply (Hbad name Hin).
    intros (v & Hv & _). congruence.
  - intros (name & Hin & Hempty). apply (Hbad name Hin).
    intros (v & Hv & Hne). congruence.
  - intros Hall. unfold HistoryAgent_init. cbn [forallb].
    rewrite !(proj2 (truthy_opt_usable env _)) by (apply Hall; simpl; auto).
    cbn [andb negb]. eexists. split; [reflexivity|].
    split; [reflexivity|]. cbn [context].
    by destruct ctx as [[|c s]|].
Qed.

(** ** The theorems at concrete inputs *)

(** A message with the role [tool] between a system message and a message
    without a role: three messages, two lines. *)
Lemma convert_messages_drops_tool_message :
  _convert_messages [system_message; tool_message; bare_message]
  = "System: Be brief." +:+ nl +:+ "User: Hello"
  /\ prompt_lines [system_message; tool_message; bare_message]
     = ["System: Be brief."; "User: Hello"]
  /\ length (prompt_lines [system_message; tool_message; bare_message])
     <> length [system_message; tool_message; bare_message]
  /\ _convert_messages [tool_message] = EmptyString.
Proof. repeat split; done. Qed.

Lemma convert_messages_rendered_roles_witness :
  Forall rendered_role [system_message; bare_message; empty_assistant_message]
  /\ exists lines,
       _convert_messages [system_message; bare_message; empty_assistant_message]
       = String.concat nl lines
       /\ prompt_lines [system_message; bare_message; empty_assistant_message]
          = lines
       /\ length lines = 3
       /\ Forall2 (fun msg line =>
                     exists label,
                       role_label (msg_role msg) = Some label
                       /\ (label = "System" \/ label = "User"
                           \/ label = "Assistant")
                       /\ line = label +:+ ": " +:+ msg_content msg)
                  [system_message; bare_message; empty_assistant_message] lines.
Proof.
  assert (Forall rendered_role
            [system_message; bare_message; empty_assistant_message]) as H.
  { constructor; [left; reflexivity|].
    constructor; [right; left; reflexivity|].
    constructor; [right; right; reflexivity|]. constructor. }
  split; [exact H|].
  exact (convert_messages_rendered_roles _ H).
Defined.

Lemma convert_messages_edge_cases_witness :
  (prompt_lines ([system_message] ++ tool_message :: [bare_message])
   = prompt_lines ([system_message] ++ [bare_message])
   /\ _convert_messages ([system_message] ++ tool_message :: [bare_message])
      = _convert_messages ([system_message] ++ [bare_message])
   /\ _convert_messages ([system_message] ++ tool_message :: [bare_message])
      = "System: Be brief." +:+ nl +:+ "User: Hello")
  /\ (prompt_lines ([system_message] ++ bare_message :: [tool_message])
      = prompt_lines [system_message]
        ++ ("User: " +:+ msg_content bare_message) :: prompt_lines [tool_message]
      /\ _convert_messages ([system_message] ++ bare_message :: [tool_message])
         = "System: Be brief." +:+ nl +:+ "User: Hello")
  /\ (prompt_lines ([] ++ empty_assistant_message :: [bare_message])
      = prompt_lines [] ++ ("Assistant" +:+ ": ") :: prompt_lines [bare_message]
      /\ _convert_messages ([] ++ empty_assistant_message :: [bare_message])
         = "Assistant: " +:+ nl +:+ "User: Hello").
Proof.
  split; [|split].
  - apply (proj1 (convert_messages_edge_cases
                    [system_message] [bare_message] tool_message) "tool");
      [reflexivity | discriminate | discriminate | discriminate].
  - apply (proj1 (proj2 (convert_messages_edge_cases
                           [system_message] [tool_message] bare_message)));
      reflexivity.
  - apply (proj2 (proj2 (convert_messages_edge_cases
                           [] [bare_message] empty_assistant_message))
             "Assistant"); reflexivity.
Defined.

Lemma recognize_fail_soft_witness :
  recognize unreachable_endpoint (GladiaSTT_init "s-key") riff_audio tt
  = (Return (JString EmptyString), tt)
  /\ recognize (replying_endpoint server_error_response)
       (GladiaSTT_init "s-key") riff_audio tt
     = (Return (JString EmptyString), tt)
  /\ recognize (replying_endpoint undecodable_response)
       (GladiaSTT_init "s-key") riff_audio tt
     = (Return (JString EmptyString), tt)
  /\ recognize (replying_endpoint (json_response error_reply))
       (GladiaSTT_init "s-key") riff_audio tt
     = (Return (JString EmptyString), tt)
  /\ recognize (replying_endpoint (json_response hello_reply))
       (GladiaSTT_init "s-key") riff_audio tt
     = (Return (JString "hello"), tt)
  /\ recognize (replying_endpoint (json_response hello_reply))
       (GladiaSTT_init "s-key") [] tt
     = (Return (JString "hello"), tt).
Proof.
  pose (self := GladiaSTT_init "s-key").
  split; [|split; [|split; [|split; [|split]]]].
  - apply (proj1 (proj2 (recognize_fail_soft unreachable_endpoint
                           self riff_audio tt)) connection_error).
    reflexivity.
  - apply (proj1 (proj2 (proj2 (recognize_fail_soft
             (replying_endpoint server_error_response) self riff_audio tt)))
             server_error_response); [reflexivity | discriminate].
  - apply (proj1 (proj2 (proj2 (proj2 (recognize_fail_soft
             (replying_endpoint undecodable_response) self riff_audio tt))))
             undecodable_response decode_error); reflexivity.
  - apply (proj1 (proj2 (proj2 (proj2 (proj2 (recognize_fail_soft
             (replying_endpoint (json_response error_reply)) self riff_audio
             tt))))) (json_response error_reply) error_reply); reflexivity.
  - apply (proj1 (proj2 (proj2 (proj2 (proj2 (proj2 (recognize_fail_soft
             (replying_endpoint (json_response hello_reply)) self riff_audio
             tt)))))) (json_response hello_reply) hello_reply (JString "hello"));
      reflexivity.
  - apply (proj2 (proj2 (proj2 (proj2 (proj2 (proj2 (recognize_fail_soft
             (replying_endpoint (json_response hello_reply)) self [] tt))))))
             (json_response hello_reply)); reflexivity.
Defined.

Lemma synthesize_fail_soft_witness :
  synthesize unreachable_endpoint (MinimaxTTS_init "t-key") "Rome was founded" tt
  = (Return [], tt)
  /\ synthesize (replying_endpoint server_error_response)
       (MinimaxTTS_init "t-key") "Rome was founded" tt
     = (Return [], tt)
  /\ synthesize (replying_endpoint undecodable_response)
       (MinimaxTTS_init "t-key") "Rome was founded" tt
     = (Return [], tt)
  /\ synthesize (replying_endpoint (audio_response riff_audio))
       (MinimaxTTS_init "t-key") "Rome was founded" tt
     = (Return riff_audio, tt).
Proof.
  pose (self := MinimaxTTS_init "t-key").
  split; [|split; [|split]].
  - apply (proj1 (proj2 (synthesize_fail_soft unreachable_endpoint
                           self "Rome was founded" tt)) connection_error).
    reflexivity.
  - apply (proj1 (proj2 (proj2 (synthesize_fail_soft
             (replying_endpoint server_error_response) self
             "Rome was founded" tt))) server_error_response);
      [reflexivity | discriminate].
  - apply (proj1 (proj2 (proj2 (proj2 (synthesize_fail_soft
             (replying_endpoint undecodable_response) self
             "Rome was founded" tt)))) undecodable_response connection_error);
      reflexivity.
  - apply (proj2 (proj2 (proj2 (proj2 (synthesize_fail_soft
             (replying_endpoint (audio_response riff_audio)) self
             "Rome was founded" tt)))) (audio_response riff_audio) riff_audio);
      reflexivity.
Defined.

(** Every key is set in the environment, one of them to the empty text,
    and construction raises. *)
Lemma init_rejects_empty_key :
  Forall (fun name => is_Some (empty_key_env !! name)) required_keys
  /\ HistoryAgent_init empty_key_env None = Raise missing_keys_error.
Proof.
  split; [|reflexivity].
  repeat constructor; by eexists.
Qed.

Lemma init_fails_iff_key_unusable_witness :
  HistoryAgent_init (delete "GLADIA_API_KEY" full_env) None
  = Raise missing_keys_error
  /\ HistoryAgent_init empty_key_env (Some "the Colosseum")
     = Raise missing_keys_error
  /\ exists agent,
       HistoryAgent_init full_env (Some "the Colosseum") = Return agent
       /\ chat (gemini_llm agent) = None
       /\ context agent = "the Colosseum".
Proof.
  split; [|split].
  - apply (proj1 (init_fails_iff_key_unusable
                    (delete "GLADIA_API_KEY" full_env) None)).
    exists "GLADIA_API_KEY". split; [simpl; auto | reflexivity].
  - apply (proj1 (proj2 (init_fails_iff_key_unusable
                           empty_key_env (Some "the Colosseum")))).
    exists "GEMINI_API_KEY". split; [simpl; auto | reflexivity].
  - apply (proj2 (proj2 (init_fails_iff_key_unusable
                           full_env (Some "the Colosseum")))).
    intros name [<-|[<-|[<-|[]]]]; eexists; (split; [reflexivity | discriminate]).
Defined.

Lemma on_enter_greets_once_witness :
  exists greeting,
    on_enter (rome_agent, empty_world)
    = (Return tt,
       (rome_agent, {| sessions_started := 0; sent := [];
                       said := [ {| utterance_text := greeting;
                                    allow_interruptions := true |} ] |}))
    /\ greeting = generic_greeting.
Proof. exact (on_enter_greets_once rome_agent empty_world). Defined.

(** * Further properties of the code *)

(** ** Flattening *)

Lemma concat_cons_cons (x y : string) (l : list string) :
  String.concat nl (x :: y :: l) = x +:+ nl +:+ String.concat nl (y :: l).
Proof. reflexivity. Qed.

Lemma concat_cons (x : string) (l : list string) :
  l <> [] -> String.concat nl (x :: l) = x +:+ nl +:+ String.concat nl l.
Proof. by destruct l. Qed.

Lemma concat_merge (la lb : list string) (x y : string) :
  String.concat nl (la ++ x :: y :: lb)
  = String.concat nl (la ++ (x +:+ nl +:+ y) :: lb).
Proof.
  induction la as [|a la IH].
  - cbn [app]. rewrite concat_cons_cons. destruct lb as [|b lb].
    + reflexivity.
    + rewrite !concat_cons_cons. by rewrite !string_app_assoc.
  - cbn [app]. rewrite !concat_cons by (by destruct la). by rewrite IH.
Qed.

Lemma concat_app (la lb : list string) :
  la <> [] -> lb <> [] ->
  String.concat nl (la ++ lb)
  = String.concat nl la +:+ nl +:+ String.concat nl lb.
Proof.
  intros Ha Hb. induction la as [|a la IH]; [done|].
  destruct la as [|a' la].
  - cbn [app]. by apply concat_cons.
  - cbn [app] in *. rewrite (concat_cons a) by done.
    rewrite (concat_cons a (a' :: la)) by done. rewrite IH by done.
    by rewrite !string_app_assoc.
Qed.

Lemma prefix_empty (x : string) : String.prefix EmptyString x = true.
Proof. by destruct x. Qed.

Lemma concat_prefix (la lb : list string) :
  String.prefix (String.concat nl la) (String.concat nl (la ++ lb)) = true.
Proof.
  destruct la as [|a la]; [apply prefix_empty|].
  destruct lb as [|b lb].
  - rewrite app_nil_r. rewrite <- (string_app_nil_r (String.concat nl (a :: la))) at 2.
    apply prefix_app.
  - rewrite concat_app by done. apply prefix_app.
Qed.

Lemma rendered_line_insert (msg : Msg) (key value : string) :
  key <> "role" -> key <> "content" ->
  rendered_line (<[key := value]> msg) = rendered_line msg.
Proof.
  intros Hr Hc. unfold rendered_line, msg_role, msg_content.
  by rewrite !lookup_insert_ne.
Qed.

Lemma rendered_line_text_message (r c label : string) :
  role_label r = Some label ->
  rendered_line (text_message r c) = Some (label +:+ ": " +:+ c).
Proof.
  intros H. unfold rendered_line, msg_role, msg_content, text_message.
  rewrite lookup_insert_eq. cbn [default from_option id]. rewrite H.
  rewrite lookup_insert_ne by done. by rewrite lookup_singleton_eq.
Qed.

(** X1: keys other than ['role'] and ['content'] are not read: setting
    such a key in a message of a history leaves the prompt as it was. *)
Theorem convert_messages_ignores_other_keys (before after : list Msg)
  (msg : Msg) (key value : string) :
  key <> "role" -> key <> "content" ->
  _convert_messages (before ++ <[key := value]> msg :: after)
  = _convert_messages (before ++ msg :: after).
Proof.
  intros Hr Hc. rewrite !convert_messages_lines.
  by rewrite !prompt_lines_app, !prompt_lines_cons, rendered_line_insert.
Qed.

(** X2: the prompt does not keep message boundaries: a message whose
    content holds a line feed followed by a role label and a colon gives
    the prompt of two messages, so two histories of different lengths and
    roles flatten to one prompt. *)
Theorem convert_messages_newline_forges_message (before after : list Msg)
  (r1 r2 label1 label2 c1 c2 : string) :
  role_label r1 = Some label1 -> role_label r2 = Some label2 ->
  _convert_messages
    (before ++ text_message r1 (c1 +:+ nl +:+ label2 +:+ ": " +:+ c2) :: after)
  = _convert_messages
      (before ++ text_message r1 c1 :: text_message r2 c2 :: after).
Proof.
  intros H1 H2. rewrite !convert_messages_lines.
  rewrite !prompt_lines_app, !prompt_lines_cons.
  rewrite !(rendered_line_text_message r1 _ label1 H1).
  rewrite (rendered_line_text_message r2 _ label2 H2).
  simpl. rewrite concat_merge. by rewrite !string_app_assoc.
Qed.

(** X3: the prompt has one line per message with one of the three roles
    and none for the others: the number of joined lines is the number of
    rendered messages, at most the number of messages. *)
Theorem prompt_lines_count (messages : list Msg) :
  length (prompt_lines messages) = length (List.filter is_rendered messages)
  /\ length (prompt_lines messages) <= length messages.
Proof.
  rewrite prompt_lines_omap.
  induction messages as [|m ms [IH1 IH2]]; [done|].
  cbn [omap List.filter list_omap].
  replace (is_rendered m) with (bool_decide (is_Some (rendered_line m))).
  - destruct (rendered_line m); cbn [bool_decide length]; simpl; split; lia.
  - unfold is_rendered, rendered_line.
    by destruct (role_label (msg_role m)).
Qed.

Lemma prompt_lines_unrendered (messages : list Msg) :
  Forall (fun msg => is_rendered msg = false) messages ->
  prompt_lines messages = [].
Proof.
  intros H. rewrite prompt_lines_omap.
  induction H as [|m ms Hm _ IH]; [done|].
  cbn [omap list_omap]. unfold is_rendered, rendered_line in *.
  by destruct (role_label (msg_role m)).
Qed.

(** ** The conversation adapter *)

(** X4: a history with no message of the three roles, the empty history
    included, flattens to the empty text, and [chat_completion] sends this
    empty prompt to the model all the same: there is no guard on it. *)
Theorem chat_completion_sends_empty_prompt {Tool : Type}
  (model_reply : list (Handle * string) -> Handle -> string -> PyResult Response)
  (messages : list Msg) (tools : option (list Tool))
  (st : GeminiLLM * World) :
  Forall (fun msg => is_rendered msg = false) messages ->
  _convert_messages messages = EmptyString
  /\ sent (snd (snd (chat_completion model_reply messages tools st)))
     = sent (snd st) ++ [(handle_for st, EmptyString)]
  /\ fst (chat_completion model_reply messages tools st)
     = Return (assistant_reply
                 (reply_text
                    match model_reply (sent (snd st)) (handle_for st) EmptyString with
                    | Return response => text response
                    | Raise e => Raise e
                    end)).
Proof.
  intros H.
  assert (_convert_messages messages = EmptyString) as E.
  { by rewrite convert_messages_lines, prompt_lines_unrendered. }
  rewrite chat_completion_eq. unfold model_call, store_after. rewrite E.
  by repeat split.
Qed.

(** X5: the wrapper sends the whole flattened history on every call, through
    the one chat session: when the history of a call extends the history
    of the call before, the second prompt starts with the first, so the
    session is sent the earlier turns again. *)
Theorem chat_completion_resends_history {Tool : Type}
  (model_reply : list (Handle * string) -> Handle -> string -> PyResult Response)
  (earlier added : list Msg) (tools1 tools2 : option (list Tool))
  (st : GeminiLLM * World) :
  let after :=
    run_calls model_reply [(earlier, tools1); (earlier ++ added, tools2)] st in
  sent (snd after)
  = sent (snd st)
    ++ [(handle_for st, _convert_messages earlier);
        (handle_for st, _convert_messages (earlier ++ added))]
  /\ String.prefix (_convert_messages earlier)
       (_convert_messages (earlier ++ added)) = true.
Proof.
  intros after. subst after. split.
  - rewrite !run_calls_cons. cbn [run_calls fold_left fst].
    unfold store_after at 1. cbn [snd sent].
    unfold store_after, handle_for. cbn [fst snd chat sent].
    by rewrite <- app_assoc.
  - rewrite !convert_messages_lines, prompt_lines_app. apply concat_prefix.
Qed.

(** ** Sessions of calls on the agent *)

Section SessionProperties.

Context {Tool : Type}.
Variable model_reply :
  list (Handle * string) -> Handle -> string -> PyResult Response.
Variable post : Request -> PyResult HttpResponse.

Implicit Types (c : AgentCall (Tool := Tool)) (st : HistoryAgent * World).

Lemma perform_model_call c st (messages : list Msg) :
  model_messages c = Some messages ->
  llm_store (perform model_reply post c st) = store_after messages (llm_store st)
  /\ context (fst (perform model_reply post c st)) = context (fst st).
Proof.
  destruct st as [agent w]. unfold llm_store.
  destruct c; intros H; simplify_eq/=.
  - unfold _custom_llm. by rewrite on_gemini_llm_chat_completion.
  - pose proof (get_historical_info_eq (Tool := Tool) model_reply agent w
                  place_or_event) as E.
    cbv zeta in E. by rewrite E.
  - pose proof (explore_time_period_eq (Tool := Tool) model_reply agent w
                  time_period) as E.
    cbv zeta in E. by rewrite E.
Qed.

Lemma perform_other_call c st :
  model_messages c = None ->
  gemini_llm (fst (perform model_reply post c st)) = gemini_llm (fst st)
  /\ sessions_started (snd (perform model_reply post c st))
     = sessions_started (snd st)
  /\ sent (snd (perform model_reply post c st)) = sent (snd st)
  /\ context (fst (perform model_reply post c st)) = context (fst st).
Proof.
  destruct st as [agent w].
  destruct c; intros H; simplify_eq/=.
  - unfold _custom_stt, bind, get. cbn [fst]. by rewrite recognize_eq.
  - unfold _custom_tts, bind, get. cbn [fst]. by rewrite synthesize_eq.
  - by rewrite on_enter_eq.
Qed.

Lemma perform_said c st :
  said (snd (perform model_reply post c st))
  = said (snd st)
    ++ (if is_on_enter c
        then [ {| utterance_text := greeting_for (context (fst st));
                  allow_interruptions := true |} ]
        else [])
  /\ context (fst (perform model_reply post c st)) = context (fst st).
Proof.
  destruct (model_messages c) as [messages|] eqn:E.
  - destruct (perform_model_call c st messages E) as [Hs Hc].
    split; [|exact Hc].
    apply (f_equal (fun s => said (snd s))) in Hs.
    unfold llm_store in Hs. cbn [snd store_after said] in Hs. rewrite Hs.
    destruct c; simplify_eq/=; by rewrite app_nil_r.
  - destruct (perform_other_call c st E) as (_ & _ & _ & Hc).
    split; [|exact Hc].
    destruct st as [agent w]. destruct c; simplify_eq/=.
    + unfold _custom_stt, bind, get. cbn [fst]. rewrite recognize_eq.
      by rewrite app_nil_r.
    + unfold _custom_tts, bind, get. cbn [fst]. rewrite synthesize_eq.
      by rewrite app_nil_r.
    + by rewrite on_enter_eq.
Qed.

Lemma perform_all_cons c (cs : list (AgentCall (Tool := Tool))) st :
  perform_all model_reply post (c :: cs) st
  = perform_all model_reply post cs (perform model_reply post c st).
Proof. reflexivity. Qed.

(** X6: over any session of calls on the agent, every prompt that reaches
    the model goes through one chat handle, the conversation and the two
    tools alike; the prompts are the flattened histories of the calls that
    reach the model, in the order of the calls; speech calls and the
    greeting send nothing. A session is started at most once, by the first
    such call when the agent holds no handle yet. *)
Theorem agent_session_shares_chat_handle
  (cs : list (AgentCall (Tool := Tool))) st :
  let h := handle_for (llm_store st) in
  let after := perform_all model_reply post cs st in
  sent (snd after)
  = sent (snd st)
    ++ map (fun messages => (h, _convert_messages messages))
         (omap model_messages cs)
  /\ sessions_started (snd after)
     = match chat (gemini_llm (fst st)), omap model_messages cs with
       | None, _ :: _ => S (sessions_started (snd st))
       | _, _ => sessions_started (snd st)
       end
  /\ chat (gemini_llm (fst after))
     = match omap model_messages cs with
       | [] => chat (gemini_llm (fst st))
       | _ :: _ => Some h
       end.
Proof.
  revert st. induction cs as [|c cs IH]; intros st h after; subst h after.
  - cbn. rewrite app_nil_r. by destruct (chat (gemini_llm st.1)).
  - rewrite perform_all_cons.
    specialize (IH (perform model_reply post c st)). cbv zeta in IH.
    destruct IH as (IH1 & IH2 & IH3). rewrite IH1, IH2, IH3.
    cbn [omap list_omap].
    destruct (model_messages c) as [messages|] eqn:E.
    + destruct (perform_model_call c st messages E) as [Hs _].
      assert (gemini_llm (fst (perform model_reply post c st))
              = fst (store_after messages (llm_store st))) as Hg
        by (by rewrite <- Hs).
      assert (snd (perform model_reply post c st)
              = snd (store_after messages (llm_store st))) as Hw
        by (by rewrite <- Hs).
      rewrite Hs, Hg, Hw.
      unfold store_after, handle_for, llm_store. cbn [fst snd chat sent map
        sessions_started].
      rewrite <- app_assoc. cbn [app].
      split; [reflexivity|]. split.
      * by destruct (chat (gemini_llm st.1)), (omap model_messages cs).
      * by destruct (omap model_messages cs).
    + destruct (perform_other_call c st E) as (Hg & Hn & Hsent & _).
      unfold llm_store, handle_for. cbn [fst snd].
      by rewrite Hg, Hn, Hsent.
Qed.

(** X7: over any session of calls on the agent, the host session is asked
    to speak by [on_enter] alone, once per call and always with the same
    greeting, the one of the context the agent was built with; the speech
    calls, the conversation and the tools say nothing. *)
Theorem agent_session_speaks_on_enter_only
  (cs : list (AgentCall (Tool := Tool))) st :
  said (snd (perform_all model_reply post cs st))
  = said (snd st)
    ++ replicate (length (List.filter is_on_enter cs))
         {| utterance_text := greeting_for (context (fst st));
            allow_interruptions := true |}
  /\ context (fst (perform_all model_reply post cs st)) = context (fst st).
Proof.
  revert st. induction cs as [|c cs IH]; intros st.
  - cbn. by rewrite app_nil_r.
  - rewrite perform_all_cons.
    destruct (IH (perform model_reply post c st)) as [IH1 IH2].
    destruct (perform_said c st) as [Hs Hc].
    rewrite IH1, IH2, Hs, Hc. split; [|reflexivity].
    cbn [List.filter]. destruct (is_on_enter c); cbn [length replicate].
    + by rewrite <- app_assoc.
    + by rewrite app_nil_r.
Qed.

End SessionProperties.

(** ** Construction and wiring *)

Lemma init_Return_inv (env : Env) (ctx : option string) (agent : HistoryAgent) :
  HistoryAgent_init env ctx = Return agent ->
  exists gemini_key gladia_key minimax_key,
    env !! "GEMINI_API_KEY" = Some gemini_key
    /\ env !! "GLADIA_API_KEY" = Some gladia_key
    /\ env !! "MINIMAX_API_KEY" = Some minimax_key
    /\ gemini_key <> EmptyString /\ gladia_key <> EmptyString
    /\ minimax_key <> EmptyString
    /\ agent = {| gemini_llm := GeminiLLM_init gemini_key default_model;
                  gladia_stt := GladiaSTT_init gladia_key;
                  minimax_tts := MinimaxTTS_init minimax_key;
                  context := default EmptyString ctx;
                  instructions :=
                    if truthy (default EmptyString ctx)
                    then base_instructions +:+ context_section (default EmptyString ctx)
                    else base_instructions |}.
Proof.
  unfold HistoryAgent_init, getenv. cbn [forallb].
  destruct (env !! "GEMINI_API_KEY") as [[|a1 k1]|]; [done| |done].
  destruct (env !! "GLADIA_API_KEY") as [[|a2 k2]|]; [done| |done].
  destruct (env !! "MINIMAX_API_KEY") as [[|a3 k3]|]; [done| |done].
  cbn [truthy_opt truthy andb negb]. intros H. simplify_eq.
  do 3 eexists. do 6 (split; [done|]).
  by destruct ctx as [[|c s]|].
Qed.

(** X8: construction reads the environment at the three keys only: two
    environments that agree on them give the same agent, or the same
    error. *)
Theorem init_reads_three_keys (env env' : Env) (ctx : option string) :
  (forall name, In name required_keys -> env !! name = env' !! name) ->
  HistoryAgent_init env ctx = HistoryAgent_init env' ctx.
Proof.
  intros H. unfold HistoryAgent_init, getenv.
  by rewrite !H by (simpl; auto).
Qed.

(** X9: the speech-to-text call of a constructed agent posts one request,
    to the transcription address of Gladia, with the Gladia key of the
    environment as its only header and the audio and the language tag as
    the form; it returns what that reply gives and leaves agent and world
    as they were. *)
Theorem agent_stt_request (env : Env) (ctx : option string)
  (agent : HistoryAgent) (post : Request -> PyResult HttpResponse)
  (audio_data : bytes) (w : World) :
  HistoryAgent_init env ctx = Return agent ->
  exists key,
    env !! "GLADIA_API_KEY" = Some key
    /\ _custom_stt post audio_data (agent, w)
       = (Return
            (transcript_of
               (post {| url := "https://api.gladia.io/v2/transcription";
                        headers := [("X-Gladia-Key", key)];
                        body := FormData
                                  [("audio", FileField audio_data "audio.wav"
                                               "audio/wav");
                                   ("language", TextField "en")] |})),
          (agent, w)).
Proof.
  intros H.
  destruct (init_Return_inv env ctx agent H)
    as (g & s & t & Hg & Hs & Ht & _ & _ & _ & ->).
  exists s. split; [exact Hs|].
  unfold _custom_stt, bind, get. cbn [fst gladia_stt].
  by rewrite recognize_eq.
Qed.

(** X10: the text-to-speech call of a constructed agent posts one request,
    to the synthesis address of MiniMax, with the MiniMax key of the
    environment as bearer token and a JSON body that holds the text and the
    fixed voice and audio settings; it returns what that reply gives and
    leaves agent and world as they were. *)
Theorem agent_tts_request (env : Env) (ctx : option string)
  (agent : HistoryAgent) (post : Request -> PyResult HttpResponse)
  (text : string) (w : World) :
  HistoryAgent_init env ctx = Return agent ->
  exists key,
    env !! "MINIMAX_API_KEY" = Some key
    /\ _custom_tts post text (agent, w)
       = (Return
            (audio_of
               (post {| url := "https://api.minimax.chat/v1/text_to_speech";
                        headers := [("Authorization", "Bearer " +:+ key);
                                    ("Content-Type", "application/json")];
                        body := JsonBody
                                  (JObject
                                     [("text", JString text);
                                      ("voice_setting",
                                       JObject [("voice_id", JString "presenter_male");
                                                ("speed", JNumber "1.0");
                                                ("vol", JNumber "1.0");
                                                ("pitch", JNumber "0")]);
                                      ("audio_setting",
                                       JObject [("sample_rate", JNumber "24000");
                                                ("bitrate", JNumber "128000");
                                                ("format", JString "wav")])]) |})),
          (agent, w)).
Proof.
  intros H.
  destruct (init_Return_inv env ctx agent H)
    as (g & s & t & Hg & Hs & Ht & _ & _ & _ & ->).
  exists t. split; [exact Ht|].
  unfold _custom_tts, bind, get. cbn [fst minimax_tts].
  by rewrite synthesize_eq.
Qed.

(** X11: construction treats no context and the empty context alike, and
    the instructions of a constructed agent are the base instructions,
    followed, when the context is not empty, by the context section that
    ends in the context. *)
Theorem init_context_instructions (env : Env) :
  HistoryAgent_init env None = HistoryAgent_init env (Some EmptyString)
  /\ (forall ctx agent,
        HistoryAgent_init env ctx = Return agent ->
        context agent = default EmptyString ctx
        /\ String.prefix base_instructions (instructions agent) = true
        /\ instructions agent
           = match default EmptyString ctx with
             | EmptyString => base_instructions
             | String a c =>
                 base_instructions +:+ nl +:+ nl
                 +:+ "Additional context for this conversation:" +:+ nl
                 +:+ String a c
             end).
Proof.
  split; [reflexivity|]. intros ctx agent H.
  destruct (init_Return_inv env ctx agent H)
    as (g & s & t & _ & _ & _ & _ & _ & _ & ->).
  cbn [context instructions]. split; [reflexivity|].
  destruct (default EmptyString ctx) as [|a c]; cbn [truthy].
  - split; [|reflexivity].
    rewrite <- (string_app_nil_r base_instructions) at 2. apply prefix_app.
  - split; [apply prefix_app | reflexivity].
Qed.

(** X12: the greeting of a constructed agent follows the context it was
    built with: the greeting that names the context when a context that is
    not empty was given, the generic greeting when none or the empty one
    was. *)
Theorem constructed_agent_greeting (env : Env) (ctx : option string)
  (agent : HistoryAgent) (w : World) :
  HistoryAgent_init env ctx = Return agent ->
  on_enter (agent, w)
  = (Return tt,
     (agent,
      {| sessions_started := sessions_started w; sent := sent w;
         said := said w
                 ++ [ {| utterance_text :=
                           match ctx with
                           | Some (String a c) => context_greeting (String a c)
                           | _ => generic_greeting
                           end;
                         allow_interruptions := true |} ] |})).
Proof.
  intros H. rewrite on_enter_eq.
  destruct (init_Return_inv env ctx agent H)
    as (g & s & t & _ & _ & _ & _ & _ & _ & ->).
  cbn [context]. by destruct ctx as [[|a c]|].
Qed.

(** ** The room metadata *)

(** X13: reading the context from the room metadata never raises. Without
    metadata, or with the empty text, the decoder is not consulted and the
    context is [None]; it is [None] too when the text does not decode and
    when the decoded value is not an object or has no member ['context'];
    else it is that member. *)
Theorem entrypoint_context_fail_soft {S : Type}
  (json_loads : string -> PyResult json) (s : S) :
  entrypoint_context json_loads None s = (Return JNull, s)
  /\ entrypoint_context json_loads (Some EmptyString) s = (Return JNull, s)
  /\ (forall metadata, exists found,
        entrypoint_context json_loads metadata s = (Return found, s))
  /\ (forall text e, text <> EmptyString -> json_loads text = Raise e ->
        entrypoint_context json_loads (Some text) s = (Return JNull, s))
  /\ (forall text decoded, text <> EmptyString ->
        json_loads text = Return decoded ->
        entrypoint_context json_loads (Some text) s
        = (Return match decoded with
                  | JObject members =>
                      default JNull (dict_lookup "context" members)
                  | _ => JNull
                  end, s)).
Proof.
  assert (forall text, text <> EmptyString ->
            entrypoint_context json_loads (Some text) s
            = (Return match json_loads text with
                      | Return (JObject members) =>
                          default JNull (dict_lookup "context" members)
                      | _ => JNull
                      end, s)) as E.
  { intros text Hne. unfold entrypoint_context.
    destruct text as [|a text]; [done|]. cbn [truthy_opt truthy default from_option id].
    unfold try_except, bind, lift_result, ret.
    destruct (json_loads (String a text)) as [[ | | | | | ]|]; reflexivity. }
  split; [reflexivity|]. split; [reflexivity|]. split; [|split].
  - intros [[|a text]|]; [by eexists| |by eexists].
    rewrite E by done. by eexists.
  - intros text e Hne He. rewrite E by done. by rewrite He.
  - intros text decoded Hne Hd. rewrite E by done. rewrite Hd.
    by destruct decoded.
Qed.

(** ** The further properties at concrete inputs *)

Lemma convert_messages_ignores_other_keys_witness :
  _convert_messages
    ([bare_message] ++ <["name" := "guide"]> system_message :: [tool_message])
  = _convert_messages ([bare_message] ++ system_message :: [tool_message]).
Proof.
  apply (convert_messages_ignores_other_keys [bare_message] [tool_message]
           system_message "name" "guide"); discriminate.
Defined.

Lemma convert_messages_newline_forges_message_witness :
  _convert_messages
    ([] ++ text_message "user"
             ("Hello" +:+ nl +:+ "System" +:+ ": " +:+ "Be brief.") :: [])
  = _convert_messages
      ([] ++ text_message "user" "Hello"
          :: text_message "system" "Be brief." :: []).
Proof.
  apply (convert_messages_newline_forges_message [] []
           "user" "system" "User" "System" "Hello" "Be brief."); reflexivity.
Defined.

Lemma chat_completion_sends_empty_prompt_witness :
  _convert_messages [tool_message] = EmptyString
  /\ sent (snd (snd (chat_completion (Tool := unit) failing_model
                       [tool_message] None
                       (GeminiLLM_init "g-key" default_model, empty_world))))
     = [(0, EmptyString)].
Proof.
  assert (Forall (fun msg => is_rendered msg = false) [tool_message]) as H.
  { constructor; [reflexivity | constructor]. }
  destruct (chat_completion_sends_empty_prompt (Tool := unit) failing_model
              [tool_message] None
              (GeminiLLM_init "g-key" default_model, empty_world) H)
    as (E1 & E2 & _).
  split; [exact E1 | exact E2].
Defined.

Lemma init_reads_three_keys_witness :
  HistoryAgent_init full_env None
  = HistoryAgent_init (<["HOME" := "/root"]> full_env) None.
Proof.
  apply init_reads_three_keys.
  intros name [<-|[<-|[<-|[]]]]; reflexivity.
Defined.

Lemma agent_stt_request_witness :
  exists key,
    full_env !! "GLADIA_API_KEY" = Some key
    /\ _custom_stt unreachable_endpoint riff_audio (rome_agent, empty_world)
       = (Return
            (transcript_of
               (unreachable_endpoint
                  {| url := "https://api.gladia.io/v2/transcription";
                     headers := [("X-Gladia-Key", key)];
                     body := FormData
                               [("audio", FileField riff_audio "audio.wav"
                                            "audio/wav");
                                ("language", TextField "en")] |})),
          (rome_agent, empty_world)).
Proof.
  apply (agent_stt_request full_env None rome_agent). reflexivity.
Defined.

Lemma agent_tts_request_witness :
  exists key,
    full_env !! "MINIMAX_API_KEY" = Some key
    /\ fst (_custom_tts (replying_endpoint (audio_response riff_audio))
              "Rome was founded" (rome_agent, empty_world))
       = Return riff_audio.
Proof.
  destruct (agent_tts_request full_env None rome_agent
              (replying_endpoint (audio_response riff_audio))
              "Rome was founded" empty_world eq_refl) as (key & Hk & E).
  exists key. split; [exact Hk|]. by rewrite E.
Defined.

Lemma init_context_instructions_witness :
  exists agent,
    HistoryAgent_init full_env (Some "the Colosseum") = Return agent
    /\ context agent = "the Colosseum"
    /\ String.prefix base_instructions (instructions agent) = true
    /\ instructions agent
       = base_instructions +:+ nl +:+ nl
         +:+ "Additional context for this conversation:" +:+ nl
         +:+ "the Colosseum".
Proof.
  eexists. split; [reflexivity|].
  apply (proj2 (init_context_instructions full_env) (Some "the Colosseum")).
  reflexivity.
Defined.

Lemma constructed_agent_greeting_witness :
  exists agent,
    HistoryAgent_init full_env (Some "the Colosseum") = Return agent
    /\ said (snd (snd (on_enter (agent, empty_world))))
       = [ {| utterance_text := context_greeting "the Colosseum";
              allow_interruptions := true |} ].
Proof.
  eexists. split; [reflexivity|].
  by rewrite (constructed_agent_greeting full_env (Some "the Colosseum") _
                empty_world eq_refl).
Defined.

Lemma entrypoint_context_fail_soft_witness :
  entrypoint_context sample_loads (Some "not json") tt
  = (Return JNull, tt)
  /\ entrypoint_context sample_loads (Some "[1]") tt = (Return JNull, tt)
  /\ entrypoint_context sample_loads (Some "{}") tt = (Return JNull, tt)
  /\ entrypoint_context sample_loads (Some "ctx") tt
     = (Return (JString "the Colosseum"), tt).
Proof.
  destruct (entrypoint_context_fail_soft sample_loads tt)
    as (_ & _ & _ & Hraise & Hdecoded).
  split; [|split; [|split]].
  - apply (Hraise "not json" (mkExc "JSONDecodeError" "Expecting value"));
      [discriminate | reflexivity].
  - apply (Hdecoded "[1]" (JArray [JNumber "1"])); [discriminate | reflexivity].
  - apply (Hdecoded "{}" (JObject [])); [discriminate | reflexivity].
  - apply (Hdecoded "ctx"
             (JObject [("context", JString "the Colosseum");
                       ("lang", JString "en")])); [discriminate | reflexivity].
Defined.
